(** * WebDisplay weather station: a shallow embedding of [EstacaoMeteorologica.c]

    The firmware runs on a Raspberry Pi Pico W ([PICO_BOARD pico_w] in
    [CMakeLists.txt]).  Three pieces of code share the global variables:

    - [gpio_callback], the button interrupt, owns the navigation variables;
    - the body of the [while (true)] loop of [main] samples the sensors every
      2000 ms, applies the offsets and decides the alert;
    - [tcp_server_recv], the lwIP receive callback, answers one HTTP request.

    Each of them is embedded as a function on an explicit record of the
    globals.  Text is [string] (a sequence of bytes), C integers are [Z] with
    their wrap-around written out, and C [float]/[double] values are
    [spec_float] with the binary32 / binary64 operations of [SpecFloat]. *)

From Stdlib Require Import ZArith String Ascii List Bool Lia DecimalString SpecFloat.
From Stdlib Require DecimalFacts DecimalPos.
Import ListNotations.
Open Scope string_scope.
Open Scope Z_scope.

(** ** C strings *)

Module CStr.

Definition NUL : ascii := Ascii.zero.
Definition CR : string := String (ascii_of_nat 13) "".
Definition LF : string := String (ascii_of_nat 10) "".
Definition CRLF : string := CR ++ LF.
Definition DQ : string := String (ascii_of_nat 34) "".

(** [q s] is [s] between two double-quote characters, the [\"s\"] of the C
    string literals. *)
Definition q (s : string) : string := DQ ++ s ++ DQ.

(** The C string stored in a byte sequence: the bytes before the first NUL. *)
Fixpoint cstr (s : string) : string :=
  match s with
  | "" => ""
  | String c t => if Ascii.eqb c NUL then "" else String c (cstr t)
  end.

Definition strlen (s : string) : Z := Z.of_nat (String.length (cstr s)).

(** The first [n] bytes of [s]. *)
Fixpoint take (n : nat) (s : string) : string :=
  match n, s with
  | S k, String c t => String c (take k t)
  | _, _ => ""
  end.

(** Pointer arithmetic [s + n] inside a string. *)
Fixpoint skip (n : nat) (s : string) : string :=
  match n, s with
  | S k, String _ t => skip k t
  | _, _ => s
  end.

(** [strncpy(dst, src, n); dst[n] = 0]: the first [n] bytes of the C string. *)
Definition strncpy (n : nat) (src : string) : string := take n (cstr src).

(** [snprintf(buf, size, ...)] keeps at most [size - 1] bytes of the
    formatted text. *)
Definition snprintf (size : nat) (formatted : string) : string :=
  take (size - 1) formatted.

(** [strstr(hay, needle)]: the suffix of [hay] that starts at the first
    occurrence of [needle], [None] for a NULL result. *)
Fixpoint strstr (hay needle : string) : option string :=
  if prefix needle hay then Some hay
  else match hay with
       | "" => None
       | String _ t => strstr t needle
       end.

(** [strchr(s, c)]: the bytes before the first [c], and the suffix that
    starts at it. *)
Fixpoint strchr (s : string) (c : ascii) : option (string * string) :=
  match s with
  | "" => None
  | String a t =>
      if Ascii.eqb a c then Some ("", s)
      else match strchr t c with
           | Some (before, from) => Some (String a before, from)
           | None => None
           end
  end.

(** The pieces of [s] between occurrences of [d], empty pieces included. *)
Fixpoint pieces (d : ascii) (s : string) : list string :=
  match s with
  | "" => [""]
  | String c t =>
      if Ascii.eqb c d then "" :: pieces d t
      else match pieces d t with
           | h :: r => String c h :: r
           | [] => [String c ""]
           end
  end.

Definition nonempty (s : string) : bool :=
  match s with "" => false | _ => true end.

(** The tokens that [strtok(buf, d)] followed by repeated [strtok(NULL, d)]
    returns until NULL: runs of delimiters are skipped, so no token is
    empty. *)
Definition strtok (s : string) (d : ascii) : list string :=
  filter nonempty (pieces d s).

(** [%d] of an [int]. *)
Definition dec (n : Z) : string := NilZero.string_of_int (Z.to_int n).

End CStr.
Import CStr.

(** ** Machine integers *)

(** [uint32_t] arithmetic wraps modulo 2^32. *)
Definition uint32 (x : Z) : Z := x mod 2 ^ 32.

(** [int] is 32 bits wide on the target; the value after an increment or
    decrement is taken in two's complement. *)
Definition int32 (x : Z) : Z := (x + 2 ^ 31) mod 2 ^ 32 - 2 ^ 31.

(** ** Floating point *)

Module IEEE.

(** C [float] is binary32, C [double] is binary64. *)
Definition float := spec_float.
Definition double := spec_float.

Definition f32_add : float -> float -> float := SFadd 24 128.
Definition f32_lt : float -> float -> bool := SFltb.
Definition f32_gt (x y : float) : bool := SFltb y x.

Definition f64_add : double -> double -> double := SFadd 53 1024.
Definition f64_sub : double -> double -> double := SFsub 53 1024.
Definition f64_mul : double -> double -> double := SFmul 53 1024.
Definition f64_div : double -> double -> double := SFdiv 53 1024.

(** The usual arithmetic conversion [float -> double] (exact). *)
Definition to_double (x : float) : double :=
  match x with
  | S754_finite s m e => binary_round 53 1024 s m e
  | _ => x
  end.

(** The conversion [double -> float] of an assignment or a return,
    rounding to nearest, ties to even. *)
Definition to_float (x : double) : float :=
  match x with
  | S754_finite s m e => binary_round 24 128 s m e
  | _ => x
  end.

Definition is_finite (x : spec_float) : bool :=
  match x with
  | S754_zero _ | S754_finite _ _ _ => true
  | _ => false
  end.

(** The [double] nearest to [(-1)^neg * m * 10^e10]. *)
Definition dec_to_double (neg : bool) (m : Z) (e10 : Z) : double :=
  match m with
  | Zpos p =>
      if 0 <=? e10 then binary_round 53 1024 neg (Z.to_pos (m * 10 ^ e10)) 0
      else SFdiv 53 1024 (S754_finite neg p 0)
                 (S754_finite false (Z.to_pos (10 ^ (- e10))) 0)
  | _ => S754_zero neg
  end.

(** The [double] nearest to [(-1)^neg * m * 2^e2]. *)
Definition bin_to_double (neg : bool) (m : Z) (e2 : Z) : double :=
  match m with
  | Zpos p => binary_round 53 1024 neg p e2
  | _ => S754_zero neg
  end.

(** Literals of the source. *)
Definition f32_lit (n : Z) : float := binary_normalize 24 128 n 0 false.
Definition f64_lit (n : Z) : double := binary_normalize 53 1024 n 0 false.

End IEEE.
Import IEEE.

(** ** The C library's number conversions

    [atof] and the [%f] conversion of [snprintf] are not code of the firmware;
    they are modelled after ISO C (7.22.1.3 [strtod], 7.21.6.1 [fprintf]) in
    the "C" locale, with correct rounding. *)

Module LibC.

Definition code (c : ascii) : Z := Z.of_N (N_of_ascii c).

Definition isspace (c : ascii) : bool :=
  let n := code c in (n =? 32) || ((9 <=? n) && (n <=? 13)).

Definition digit_val (c : ascii) : option Z :=
  let n := code c in
  if (48 <=? n) && (n <=? 57) then Some (n - 48) else None.

Definition hex_val (c : ascii) : option Z :=
  let n := code c in
  if (48 <=? n) && (n <=? 57) then Some (n - 48)
  else if (97 <=? n) && (n <=? 102) then Some (n - 87)
  else if (65 <=? n) && (n <=? 70) then Some (n - 55)
  else None.

Definition tolower (c : ascii) : ascii :=
  let n := code c in
  if (65 <=? n) && (n <=? 90) then ascii_of_N (Z.to_N (n + 32)) else c.

Fixpoint lower (s : string) : string :=
  match s with
  | "" => ""
  | String c t => String (tolower c) (lower t)
  end.

Fixpoint skip_space (s : string) : string :=
  match s with
  | String c t => if isspace c then skip_space t else s
  | "" => ""
  end.

Definition read_sign (s : string) : bool * string :=
  match s with
  | String "-" t => (true, t)
  | String "+" t => (false, t)
  | _ => (false, s)
  end.

(** The longest run of digits at the head of [s], read in base [base] on
    top of [acc]: the value, the number of digits added to [n], the rest. *)
Fixpoint read_digits (val : ascii -> option Z) (base : Z) (s : string)
         (acc n : Z) : Z * Z * string :=
  match s with
  | String c t =>
      match val c with
      | Some d => read_digits val base t (acc * base + d) (n + 1)
      | None => (acc, n, s)
      end
  | "" => (acc, n, s)
  end.

(** Digits with an optional point: the integer made of all the digits, how
    many there are, how many follow the point, and the rest. *)
Definition read_mantissa (val : ascii -> option Z) (base : Z) (s : string)
  : Z * Z * Z * string :=
  let '(ip, ni, r1) := read_digits val base s 0 0 in
  match r1 with
  | String "." t =>
      let '(m, nf, r2) := read_digits val base t ip 0 in (m, ni + nf, nf, r2)
  | _ => (ip, ni, 0, r1)
  end.

(** An optional exponent part: the marker letter, an optional sign and at
    least one decimal digit; 0 when it is absent. *)
Definition read_exponent (marker : ascii) (s : string) : Z :=
  match s with
  | String c t =>
      if Ascii.eqb (tolower c) marker then
        let (neg, t') := read_sign t in
        let '(v, n, _) := read_digits digit_val 10 t' 0 0 in
        if 0 <? n then (if neg then - v else v) else 0
      else 0
  | "" => 0
  end.

Definition strtod_special (neg : bool) (s : string) : option double :=
  let l := lower (take 3 s) in
  if String.eqb l "inf" then Some (S754_infinity neg)
  else if String.eqb l "nan" then Some S754_nan
  else None.

Definition strtod_hex (neg : bool) (s : string) : option double :=
  match s with
  | String "0" (String x t) =>
      if Ascii.eqb (tolower x) "x" then
        let '(m, n, nf, r) := read_mantissa hex_val 16 t in
        if 0 <? n then Some (bin_to_double neg m (read_exponent "p" r - 4 * nf))
        else None
      else None
  | _ => None
  end.

Definition strtod_decimal (neg : bool) (s : string) : option double :=
  let '(m, n, nf, r) := read_mantissa digit_val 10 s in
  if 0 <? n then Some (dec_to_double neg m (read_exponent "e" r - nf))
  else None.

(** [atof(s)]: white space, a sign, then the longest prefix that is a
    number; [+0.0] when there is none.  There is no error result. *)
Definition atof (s : string) : double :=
  let (neg, t) := read_sign (skip_space s) in
  match strtod_special neg t with
  | Some v => v
  | None =>
      match strtod_hex neg t with
      | Some v => v
      | None =>
          match strtod_decimal neg t with
          | Some v => v
          | None => S754_zero false
          end
      end
  end.

(** The integer nearest to [a / b] for [0 <= a] and [0 < b], ties to even. *)
Definition round_div (a b : Z) : Z :=
  let d := a / b in
  match 2 * (a mod b) ?= b with
  | Lt => d
  | Gt => d + 1
  | Eq => if Z.even d then d else d + 1
  end.

(** [m * 2^e * 10^prec] rounded to an integer. *)
Definition scaled (prec : nat) (m : positive) (e : Z) : Z :=
  let p10 := 10 ^ Z.of_nat prec in
  if 0 <=? e then Zpos m * 2 ^ e * p10
  else round_div (Zpos m * p10) (2 ^ (- e)).

Fixpoint zeros (n : nat) : string :=
  match n with
  | O => ""
  | S k => String "0" (zeros k)
  end.

Definition pad (width : nat) (s : string) : string :=
  zeros (width - String.length s) ++ s.

(** [n / 10^prec] written with [prec] digits after the point. *)
Definition fixed (prec : nat) (n : Z) : string :=
  let p10 := 10 ^ Z.of_nat prec in
  dec (n / p10) ++ "." ++ pad prec (dec (n mod p10)).

Definition sign (s : bool) : string := if s then "-" else "".

(** [%.<prec>f] of a [double], for [prec >= 1]. *)
Definition fmt_f (prec : nat) (x : double) : string :=
  match x with
  | S754_nan => "nan"
  | S754_infinity s => sign s ++ "inf"
  | S754_zero s => sign s ++ fixed prec 0
  | S754_finite s m e => sign s ++ fixed prec (scaled prec m e)
  end.

End LibC.
Import LibC.

(** ** The global variables *)

Definition BUTTON_A : Z := 5.
Definition BUTTON_B : Z := 6.
Definition DEBOUNCE_MS : Z := 500.
Definition MAX_CHART_POINTS : Z := 20.

Definition G_PAGES : list string :=
  ["/"; "/config"; "/temperatura"; "/umidade"; "/pressao"; "/altitude"].

(** [sizeof(char * )] on the RP2040 of the Pico W, a 32-bit ARM core. *)
Definition sizeof_char_ptr : Z := 4.

(** [const int G_NUM_PAGES = sizeof(G_PAGES);]: the size of the array in
    bytes. *)
Definition G_NUM_PAGES : Z := Z.of_nat (List.length G_PAGES) * sizeof_char_ptr.

(** The navigation variables.  [g_target_page] is a pointer to one of the
    strings of [G_PAGES], or NULL ([None]). *)
Record nav_state := {
  g_current_page_index : Z;
  g_target_page : option string;
  g_last_press_time : Z
}.

(** The twelve configuration variables (offset, minimum, maximum per metric). *)
Record config := {
  g_temp_offset : float;
  g_temp_min : float;
  g_temp_max : float;
  g_umid_offset : float;
  g_umid_min : float;
  g_umid_max : float;
  g_press_offset : float;
  g_press_min : float;
  g_press_max : float;
  g_alt_offset : float;
  g_alt_min : float;
  g_alt_max : float
}.

(** The four calibrated readings. *)
Record readings := {
  g_temperatura : float;
  g_umidade : float;
  g_pressao : float;
  g_altitude : float
}.

Record globals := {
  nav : nav_state;
  cfg : config;
  rd : readings
}.

(** Assignment to one configuration variable. *)
Definition set_temp_offset (v : float) (c : config) : config :=
  {| g_temp_offset := v; g_temp_min := g_temp_min c; g_temp_max := g_temp_max c;
     g_umid_offset := g_umid_offset c; g_umid_min := g_umid_min c; g_umid_max := g_umid_max c;
     g_press_offset := g_press_offset c; g_press_min := g_press_min c; g_press_max := g_press_max c;
     g_alt_offset := g_alt_offset c; g_alt_min := g_alt_min c; g_alt_max := g_alt_max c |}.
Definition set_temp_min (v : float) (c : config) : config :=
  {| g_temp_offset := g_temp_offset c; g_temp_min := v; g_temp_max := g_temp_max c;
     g_umid_offset := g_umid_offset c; g_umid_min := g_umid_min c; g_umid_max := g_umid_max c;
     g_press_offset := g_press_offset c; g_press_min := g_press_min c; g_press_max := g_press_max c;
     g_alt_offset := g_alt_offset c; g_alt_min := g_alt_min c; g_alt_max := g_alt_max c |}.
Definition set_temp_max (v : float) (c : config) : config :=
  {| g_temp_offset := g_temp_offset c; g_temp_min := g_temp_min c; g_temp_max := v;
     g_umid_offset := g_umid_offset c; g_umid_min := g_umid_min c; g_umid_max := g_umid_max c;
     g_press_offset := g_press_offset c; g_press_min := g_press_min c; g_press_max := g_press_max c;
     g_alt_offset := g_alt_offset c; g_alt_min := g_alt_min c; g_alt_max := g_alt_max c |}.
Definition set_umid_offset (v : float) (c : config) : config :=
  {| g_temp_offset := g_temp_offset c; g_temp_min := g_temp_min c; g_temp_max := g_temp_max c;
     g_umid_offset := v; g_umid_min := g_umid_min c; g_umid_max := g_umid_max c;
     g_press_offset := g_press_offset c; g_press_min := g_press_min c; g_press_max := g_press_max c;
     g_alt_offset := g_alt_offset c; g_alt_min := g_alt_min c; g_alt_max := g_alt_max c |}.
Definition set_umid_min (v : float) (c : config) : config :=
  {| g_temp_offset := g_temp_offset c; g_temp_min := g_temp_min c; g_temp_max := g_temp_max c;
     g_umid_offset := g_umid_offset c; g_umid_min := v; g_umid_max := g_umid_max c;
     g_press_offset := g_press_offset c; g_press_min := g_press_min c; g_press_max := g_press_max c;
     g_alt_offset := g_alt_offset c; g_alt_min := g_alt_min c; g_alt_max := g_alt_max c |}.
Definition set_umid_max (v : float) (c : config) : config :=
  {| g_temp_offset := g_temp_offset c; g_temp_min := g_temp_min c; g_temp_max := g_temp_max c;
     g_umid_offset := g_umid_offset c; g_umid_min := g_umid_min c; g_umid_max := v;
     g_press_offset := g_press_offset c; g_press_min := g_press_min c; g_press_max := g_press_max c;
     g_alt_offset := g_alt_offset c; g_alt_min := g_alt_min c; g_alt_max := g_alt_max c |}.
Definition set_press_offset (v : float) (c : config) : config :=
  {| g_temp_offset := g_temp_offset c; g_temp_min := g_temp_min c; g_temp_max := g_temp_max c;
     g_umid_offset := g_umid_offset c; g_umid_min := g_umid_min c; g_umid_max := g_umid_max c;
     g_press_offset := v; g_press_min := g_press_min c; g_press_max := g_press_max c;
     g_alt_offset := g_alt_offset c; g_alt_min := g_alt_min c; g_alt_max := g_alt_max c |}.
Definition set_press_min (v : float) (c : config) : config :=
  {| g_temp_offset := g_temp_offset c; g_temp_min := g_temp_min c; g_temp_max := g_temp_max c;
     g_umid_offset := g_umid_offset c; g_umid_min := g_umid_min c; g_umid_max := g_umid_max c;
     g_press_offset := g_press_offset c; g_press_min := v; g_press_max := g_press_max c;
     g_alt_offset := g_alt_offset c; g_alt_min := g_alt_min c; g_alt_max := g_alt_max c |}.
Definition set_press_max (v : float) (c : config) : config :=
  {| g_temp_offset := g_temp_offset c; g_temp_min := g_temp_min c; g_temp_max := g_temp_max c;
     g_umid_offset := g_umid_offset c; g_umid_min := g_umid_min c; g_umid_max := g_umid_max c;
     g_press_offset := g_press_offset c; g_press_min := g_press_min c; g_press_max := v;
     g_alt_offset := g_alt_offset c; g_alt_min := g_alt_min c; g_alt_max := g_alt_max c |}.
Definition set_alt_offset (v : float) (c : config) : config :=
  {| g_temp_offset := g_temp_offset c; g_temp_min := g_temp_min c; g_temp_max := g_temp_max c;
     g_umid_offset := g_umid_offset c; g_umid_min := g_umid_min c; g_umid_max := g_umid_max c;
     g_press_offset := g_press_offset c; g_press_min := g_press_min c; g_press_max := g_press_max c;
     g_alt_offset := v; g_alt_min := g_alt_min c; g_alt_max := g_alt_max c |}.
Definition set_alt_min (v : float) (c : config) : config :=
  {| g_temp_offset := g_temp_offset c; g_temp_min := g_temp_min c; g_temp_max := g_temp_max c;
     g_umid_offset := g_umid_offset c; g_umid_min := g_umid_min c; g_umid_max := g_umid_max c;
     g_press_offset := g_press_offset c; g_press_min := g_press_min c; g_press_max := g_press_max c;
     g_alt_offset := g_alt_offset c; g_alt_min := v; g_alt_max := g_alt_max c |}.
Definition set_alt_max (v : float) (c : config) : config :=
  {| g_temp_offset := g_temp_offset c; g_temp_min := g_temp_min c; g_temp_max := g_temp_max c;
     g_umid_offset := g_umid_offset c; g_umid_min := g_umid_min c; g_umid_max := g_umid_max c;
     g_press_offset := g_press_offset c; g_press_min := g_press_min c; g_press_max := g_press_max c;
     g_alt_offset := g_alt_offset c; g_alt_min := g_alt_min c; g_alt_max := v |}.

(** Assignment to one reading. *)
Definition set_temperatura (v : float) (r : readings) : readings :=
  {| g_temperatura := v; g_umidade := g_umidade r;
     g_pressao := g_pressao r; g_altitude := g_altitude r |}.
Definition set_umidade (v : float) (r : readings) : readings :=
  {| g_temperatura := g_temperatura r; g_umidade := v;
     g_pressao := g_pressao r; g_altitude := g_altitude r |}.
Definition set_pressao (v : float) (r : readings) : readings :=
  {| g_temperatura := g_temperatura r; g_umidade := g_umidade r;
     g_pressao := v; g_altitude := g_altitude r |}.
Definition set_altitude (v : float) (r : readings) : readings :=
  {| g_temperatura := g_temperatura r; g_umidade := g_umidade r;
     g_pressao := g_pressao r; g_altitude := v |}.

Definition with_nav (n : nav_state) (g : globals) : globals :=
  {| nav := n; cfg := cfg g; rd := rd g |}.
Definition with_cfg (c : config) (g : globals) : globals :=
  {| nav := nav g; cfg := c; rd := rd g |}.
Definition with_rd (r : readings) (g : globals) : globals :=
  {| nav := nav g; cfg := cfg g; rd := r |}.

(** The initializers of the globals. *)
Definition nav_init : nav_state :=
  {| g_current_page_index := 0; g_target_page := None; g_last_press_time := 0 |}.

Definition cfg_init : config :=
  {| g_temp_offset := S754_zero false; g_temp_min := f32_lit 10; g_temp_max := f32_lit 40;
     g_umid_offset := S754_zero false; g_umid_min := f32_lit 60; g_umid_max := f32_lit 85;
     g_press_offset := S754_zero false; g_press_min := f32_lit 85; g_press_max := f32_lit 105;
     g_alt_offset := S754_zero false; g_alt_min := f32_lit 800; g_alt_max := f32_lit 900 |}.

Definition rd_init : readings :=
  {| g_temperatura := S754_zero false; g_umidade := S754_zero false;
     g_pressao := S754_zero false; g_altitude := S754_zero false |}.

Definition globals_init : globals :=
  {| nav := nav_init; cfg := cfg_init; rd := rd_init |}.

(** ** The button interrupt: [gpio_callback] *)

(** The load [G_PAGES[i]]: defined for the six elements of the array only. *)
Definition G_PAGES_at (i : Z) : option string :=
  if (0 <=? i) && (i <? Z.of_nat (List.length G_PAGES))
  then nth_error G_PAGES (Z.to_nat i)
  else None.

(** What a call of the interrupt handler does: it returns with the navigation
    variables as given, or it has updated the index and the press time and
    then reads [G_PAGES] past its end, where C defines no value for
    [g_target_page]. *)
Inductive outcome :=
| Done (s : nav_state)
| ReadPastEnd (s : nav_state).

(** [gpio_callback(gpio, events)], with [now] the value of
    [to_ms_since_boot(get_absolute_time())].  The [printf] to the console is
    left out. *)
Definition gpio_callback (s : nav_state) (gpio now : Z) : outcome :=
  if uint32 (now - g_last_press_time s) <? DEBOUNCE_MS then Done s
  else
    let index :=
      if gpio =? BUTTON_A then
        let i := int32 (g_current_page_index s - 1) in
        if i <? 0 then G_NUM_PAGES - 1 else i
      else if gpio =? BUTTON_B then
        let i := int32 (g_current_page_index s + 1) in
        if i >=? G_NUM_PAGES then 0 else i
      else g_current_page_index s in
    match G_PAGES_at index with
    | Some page =>
        Done {| g_current_page_index := index;
                g_target_page := Some page;
                g_last_press_time := now |}
    | None =>
        ReadPastEnd {| g_current_page_index := index;
                       g_target_page := g_target_page s;
                       g_last_press_time := now |}
    end.

(** A sequence of button edges [(gpio, now)], handled one after the other;
    it stops at the first read past the end of [G_PAGES]. *)
Fixpoint run_edges (s : nav_state) (edges : list (Z * Z)) : outcome :=
  match edges with
  | [] => Done s
  | (gpio, now) :: rest =>
      match gpio_callback s gpio now with
      | Done s' => run_edges s' rest
      | ReadPastEnd s' => ReadPastEnd s'
      end
  end.

(** ** The sample cycle of [main] *)

(** Modelled from the spec: the type [AHT20_Data] is declared in
    [lib/aht20.h], which is not among the sources; the specification has
    every raw value a float, so its two fields are taken to be [float]. *)
Record AHT20_Data := {
  temperature : float;
  humidity : float
}.

(** What the sensor drivers deliver in one cycle: the AHT20 data and the
    pressure in Pa that [main] keeps in [float pressure_pa]. *)
Record sample := {
  data_aht : AHT20_Data;
  pressure_pa : float
}.

Inductive metric := Temperatura | Umidade | Pressao | Altitude.

(** The pattern handed to [desenho_pio]. *)
Inductive desenho := alerta1 | matrizVazia.

Definition store (m : metric) (v : float) (r : readings) : readings :=
  match m with
  | Temperatura => set_temperatura v r
  | Umidade => set_umidade v r
  | Pressao => set_pressao v r
  | Altitude => set_altitude v r
  end.

Section MainLoop.

(** [pow] of the C mathematical library. *)
Variable pow : double -> double -> double.

Definition SEA_LEVEL_PRESSURE : double := f64_lit 101325.

(** [calculate_altitude]: computed in [double], returned as [float]. *)
Definition calculate_altitude (pressure : float) : float :=
  to_float
    (f64_mul (f64_lit 44330)
       (f64_sub (f64_lit 1)
          (pow (f64_div (to_double pressure) SEA_LEVEL_PRESSURE)
               (dec_to_double false 1903 (-4))))).

(** The four assignments that apply the offsets, in program order, each
    with the value it stores.  The pressure is converted to kPa and summed
    in [double], then stored as [float]. *)
Definition offset_stores (smp : sample) (c : config) : list (metric * float) :=
  [ (Temperatura, f32_add (temperature (data_aht smp)) (g_temp_offset c));
    (Umidade, f32_add (humidity (data_aht smp)) (g_umid_offset c));
    (Pressao, to_float (f64_add (f64_div (to_double (pressure_pa smp)) (f64_lit 1000))
                                (to_double (g_press_offset c))));
    (Altitude, f32_add (calculate_altitude (pressure_pa smp)) (g_alt_offset c)) ].

Definition run_stores (stores : list (metric * float)) (r : readings) : readings :=
  fold_left (fun acc mv => store (fst mv) (snd mv) acc) stores r.

(** The [em_alerta] flag as the two [if] statements compute it. *)
Definition em_alerta (c : config) (r : readings) : bool :=
  let alerta := false in
  let alerta :=
    if f32_gt (g_temperatura r) (g_temp_max c) || f32_lt (g_temperatura r) (g_temp_min c)
    then true else alerta in
  let alerta :=
    if f32_gt (g_umidade r) (g_umid_max c) || f32_lt (g_umidade r) (g_umid_min c)
    then true else alerta in
  alerta.

(** The block guarded by [now_ms - last_sensor_read_ms >= 2000]: the new
    globals, the alert flag and the drawings sent to the LED matrix. *)
Definition sample_cycle (smp : sample) (g : globals) : globals * bool * list desenho :=
  let g' := with_rd (run_stores (offset_stores smp (cfg g)) (rd g)) g in
  let alerta := em_alerta (cfg g') (rd g') in
  (g', alerta, if alerta then [alerta1; alerta1] else [matrizVazia]).

(** One iteration of the [while (true)] loop after [cyw43_arch_poll()]:
    [last] is the local [last_sensor_read_ms]. *)
Definition loop_iteration (now_ms : Z) (smp : sample) (last : Z) (g : globals)
  : Z * globals * list desenho :=
  if 2000 <=? uint32 (now_ms - last) then
    let '(g', _, drawn) := sample_cycle smp g in (now_ms, g', drawn)
  else (last, g, []).

End MainLoop.

(** ** The page templates *)

(** The HTML head, the style sheet and the script that polls [/navigate]. *)
Definition HTML_HEADER : string :=
  "<!DOCTYPE html><html lang='pt-BR'><head><meta charset='UTF-8'>" ++
  "<meta name='viewport' content='width=device-width, initial-scale=1'>" ++
  "<title>Web Display</title>" ++
  "<link href='https://cdn.jsdelivr.net/npm/bootstrap@5.3.3/dist/css/bootstrap.min.css' rel='stylesheet'>" ++
  "<script src='https://cdn.jsdelivr.net/npm/chart.js'></script>" ++
  "<script src='https://cdn.jsdelivr.net/npm/chartjs-plugin-annotation@3.0.1/dist/chartjs-plugin-annotation.min.js'></script>" ++
  "<style>" ++
  "body { background-color: #f0f2f5; }" ++
  ".card p { font-size: 2.5rem; font-weight: 300; margin-bottom: 0; }" ++
  ".card .card-footer { font-size: 0.85rem; color: #6c757d; }" ++
  ".form-grid-item { display: flex; flex-direction: column; text-align: left; }" ++
  "</style>" ++
  "<script>" ++
  "function checkNavigation(){" ++
  "fetch('/navigate').then(r=>r.json()).then(d=>{" ++
  "if(d&&d.goto&&window.location.pathname!==d.goto){window.location.href=d.goto;}" ++
  "}).catch(e=>{});" ++
  "}" ++
  "setInterval(checkNavigation,1200);" ++
  "</script>" ++
  "</head><body class='text-center'>".

(** The navigation bar common to all pages. *)
Definition HTML_NAV : string :=
  "<nav class='navbar navbar-expand-lg navbar-light bg-white shadow-sm mb-4'>" ++
  "<div class='container-fluid'>" ++
  "<a class='navbar-brand' href='/'>Web Display</a>" ++
  "<button class='navbar-toggler' type='button' data-bs-toggle='collapse' data-bs-target='#navbarNav'>" ++
  "<span class='navbar-toggler-icon'></span>" ++
  "</button>" ++
  "<div class='collapse navbar-collapse' id='navbarNav'>" ++
  "<ul class='navbar-nav me-auto mb-2 mb-lg-0'>" ++
  "<li class='nav-item'><a class='nav-link' href='/'>Início</a></li>" ++
  "<li class='nav-item'><a class='nav-link' href='/config'>Configurações</a></li>" ++
  "<li class='nav-item'><a class='nav-link' href='/temperatura'>Temperatura</a></li>" ++
  "<li class='nav-item'><a class='nav-link' href='/umidade'>Umidade</a></li>" ++
  "<li class='nav-item'><a class='nav-link' href='/pressao'>Pressão</a></li>" ++
  "<li class='nav-item'><a class='nav-link' href='/altitude'>Altitude</a></li>" ++
  "</ul>" ++
  "</div>" ++
  "</div>" ++
  "</nav>".

(** The body of the home page. *)
Definition HTML_CONTENT_INICIO : string :=
  "<main class='container'>" ++
  "<h1>Painel de Controle</h1>" ++
  "<div class='row g-4 justify-content-center mt-3' id='cards-container'>" ++
  "<div class='col-12 col-md-6 col-lg-3'><div class='card shadow-sm'><div class='card-body'><h2>Temperatura</h2><p><span id='temp_valor'>--</span> °C</p></div></div></div>" ++
  "<div class='col-12 col-md-6 col-lg-3'><div class='card shadow-sm'><div class='card-body'><h2>Umidade</h2><p><span id='umidade_valor'>--</span> %</p></div></div></div>" ++
  "<div class='col-12 col-md-6 col-lg-3'><div class='card shadow-sm'><div class='card-body'><h2>Pressão</h2><p><span id='pressao_valor'>--</span> kPa</p></div></div></div>" ++
  "<div class='col-12 col-md-6 col-lg-3'><div class='card shadow-sm'><div class='card-body'><h2>Altitude</h2><p><span id='alt_valor'>--</span> m</p></div></div></div>" ++
  "</div>" ++
  "</main>" ++
  "<script>" ++
  "function atualizarValores(){fetch('/estado').then(r=>r.json()).then(d=>{document.getElementById('temp_valor').innerText=d.temperatura.toFixed(2);document.getElementById('umidade_valor').innerText=d.umidade.toFixed(2);document.getElementById('pressao_valor').innerText=d.pressao.toFixed(3);document.getElementById('alt_valor').innerText=d.altitude.toFixed(2);}).catch(e=>console.error(e));}" ++
  "setInterval(atualizarValores,2000);window.onload=atualizarValores;" ++
  "</script>".

(** The form of the configuration page. *)
Definition HTML_CONTENT_CONFIG : string :=
  "<main class='container d-flex justify-content-center'>" ++
  "<div class='card shadow-sm' style='max-width: 800px; flex-grow: 1;'>" ++
  "<div class='card-body'>" ++
  "<h2 class='card-title'>Limites e Calibração</h2>" ++
  "<form id='configForm' class='mt-4'>" ++
  "<h4>Temperatura (°C)</h4>" ++
  "<div class='row g-3 align-items-center mb-3'>" ++
  "<div class='col-md-4 form-grid-item'><label for='temp_min' class='form-label'>Mínimo:</label><input type='number' step='any' id='temp_min' name='temp_min' class='form-control'></div>" ++
  "<div class='col-md-4 form-grid-item'><label for='temp_max' class='form-label'>Máximo:</label><input type='number' step='any' id='temp_max' name='temp_max' class='form-control'></div>" ++
  "<div class='col-md-4 form-grid-item'><label for='temp_offset' class='form-label'>Offset:</label><input type='number' step='any' id='temp_offset' name='temp_offset' class='form-control'></div>" ++
  "</div><hr>" ++
  "<h4>Umidade (%)</h4>" ++
  "<div class='row g-3 align-items-center mb-3'>" ++
  "<div class='col-md-4 form-grid-item'><label for='umid_min' class='form-label'>Mínimo:</label><input type='number' step='any' id='umid_min' name='umid_min' class='form-control'></div>" ++
  "<div class='col-md-4 form-grid-item'><label for='umid_max' class='form-label'>Máximo:</label><input type='number' step='any' id='umid_max' name='umid_max' class='form-control'></div>" ++
  "<div class='col-md-4 form-grid-item'><label for='umid_offset' class='form-label'>Offset:</label><input type='number' step='any' id='umid_offset' name='umid_offset' class='form-control'></div>" ++
  "</div><hr>" ++
  "<h4>Pressão (kPa)</h4>" ++
  "<div class='row g-3 align-items-center mb-3'>" ++
  "<div class='col-md-4 form-grid-item'><label for='press_min' class='form-label'>Mínimo:</label><input type='number' step='any' id='press_min' name='press_min' class='form-control'></div>" ++
  "<div class='col-md-4 form-grid-item'><label for='press_max' class='form-label'>Máximo:</label><input type='number' step='any' id='press_max' name='press_max' class='form-control'></div>" ++
  "<div class='col-md-4 form-grid-item'><label for='press_offset' class='form-label'>Offset:</label><input type='number' step='any' id='press_offset' name='press_offset' class='form-control'></div>" ++
  "</div><hr>" ++
  "<h4>Altitude (m)</h4>" ++
  "<div class='row g-3 align-items-center mb-3'>" ++
  "<div class='col-md-4 form-grid-item'><label for='alt_min' class='form-label'>Mínimo:</label><input type='number' step='any' id='alt_min' name='alt_min' class='form-control'></div>" ++
  "<div class='col-md-4 form-grid-item'><label for='alt_max' class='form-label'>Máximo:</label><input type='number' step='any' id='alt_max' name='alt_max' class='form-control'></div>" ++
  "<div class='col-md-4 form-grid-item'><label for='alt_offset' class='form-label'>Offset:</label><input type='number' step='any' id='alt_offset' name='alt_offset' class='form-control'></div>" ++
  "</div>" ++
  "<button type='submit' class='btn btn-primary mt-3'>Salvar Configurações</button>" ++
  "<p id='saveStatus' class='mt-2' style='color:green; font-weight:bold;'></p>" ++
  "</form>" ++
  "</div></div>" ++
  "</main>" ++
  "<script>" ++
  "window.onload=()=>{fetch('/getconfig').then(r=>r.json()).then(d=>{for(const key in d){let el=document.getElementById(key);if(el)el.value=d[key];}}).catch(e=>console.error('Erro:',e));};" ++
  "document.getElementById('configForm').addEventListener('submit',e=>{" ++
  "e.preventDefault();const formData=new FormData(e.target);const status=document.getElementById('saveStatus');" ++
  "status.textContent='Salvando...';" ++
  "fetch('/config',{method:'POST',body:new URLSearchParams(formData)})" ++
  ".then(res=>{if(res.ok)status.textContent='Configurações salvas!';else status.textContent='Falha ao salvar.';setTimeout(()=>status.textContent='',3000);})" ++
  ".catch(e=>{console.error(e);status.textContent='Erro de comunicação.';});" ++
  "});" ++
  "</script>".

(** The template of the four chart pages; it holds one [%d]. *)
Definition HTML_CONTENT_CHART_PAGE : string :=
  "<h1 id='page-title'>Gráfico</h1>" ++
  "<div class='container'><div class='card chart-card'><canvas id='chart'></canvas></div></div>" ++
  "<script>" ++
  "const page_configs={" ++
  "'/temperatura':{key:'temperatura',sufix:'temp',title:'Temperatura',label:'Temperatura (°C)',color:'rgb(255,99,132)',alpha:'rgba(255,99,132,0.2)'}," ++
  "'/umidade':{key:'umidade',sufix:'umid',title:'Umidade',label:'Umidade (%)',color:'rgb(54,162,235)',alpha:'rgba(54,162,235,0.2)'}," ++
  "'/pressao':{key:'pressao',sufix:'press',title:'Pressão',label:'Pressão (kPa)',color:'rgb(75,192,192)',alpha:'rgba(75,192,192,0.2)'}," ++
  "'/altitude':{key:'altitude',sufix:'alt',title:'Altitude',label:'Altitude (m)',color:'rgb(153,102,255)',alpha:'rgba(153,102,255,0.2)'}" ++
  "};" ++
  "const config=page_configs[window.location.pathname];" ++
  "document.getElementById('page-title').textContent='Gráfico de '+config.title;" ++
  "let chart;" ++
  "function createChart(limits){" ++
  "const min_val=limits[config.sufix+'_min'];const max_val=limits[config.sufix+'_max'];" ++
  "const ctx=document.getElementById('chart').getContext('2d');" ++
  "chart=new Chart(ctx,{type:'line',data:{labels:[],datasets:[{label:config.label,data:[],borderColor:config.color,backgroundColor:config.alpha,borderWidth:2,fill:true,tension:0.1}]}," ++
  "options:{plugins:{annotation:{annotations:{" ++
  "line_min:{type:'line',yMin:min_val,yMax:min_val,borderColor:'red',borderWidth:2,borderDash:[6,6],label:{content:'Mín: '+min_val,enabled:true,position:'start'}}," ++
  "line_max:{type:'line',yMin:max_val,yMax:max_val,borderColor:'green',borderWidth:2,borderDash:[6,6],label:{content:'Máx: '+max_val,enabled:true,position:'start'}}" ++
  "}}}}});" ++
  "}" ++
  "function addData(d){if(!chart)return;const t=new Date().toLocaleTimeString('pt-BR',{hour:'2-digit',minute:'2-digit',second:'2-digit'});chart.data.labels.push(t);chart.data.datasets[0].data.push(d);if(chart.data.labels.length>%d) {chart.data.labels.shift();chart.data.datasets[0].data.shift();}chart.update('none');}" ++
  "function atualizarGrafico(){fetch('/estado').then(r=>r.json()).then(d=>addData(d[config.key])).catch(e=>console.error('Erro:',e));}" ++
  "window.onload=()=>{fetch('/getconfig').then(r=>r.json()).then(limits=>{createChart(limits);atualizarGrafico();setInterval(atualizarGrafico,2000);}).catch(e=>console.error('Erro:',e));};" ++
  "</script>".

(** The closing tags common to all pages. *)
Definition HTML_FOOTER : string :=
  "<script src='https://cdn.jsdelivr.net/npm/bootstrap@5.3.3/dist/js/bootstrap.bundle.min.js'></script>" ++
  "</body></html>".

(** ** The HTTP responder *)

(** [send_chunk]: [tcp_write] queues the [strlen(data)] bytes of [data] on the
    connection.  A response is the list of the chunks queued, in order; what
    the client receives is their concatenation. *)
Definition send_chunk (data : string) : string := cstr data.

Definition wire (chunks : list string) : string :=
  fold_right append "" chunks.

(** [snprintf(buf, size, template, arg)] for a template with one [int]
    argument: [%d] is the argument in decimal and [%%] is a percent sign.
    The chart template also holds [%)], which ISO C leaves undefined; the
    character after the percent sign is printed, as the C libraries for the
    Pico do. *)
Fixpoint format_d (template : string) (arg : Z) : string :=
  match template with
  | "" => ""
  | String "%" (String c t) =>
      (if Ascii.eqb c "d" then dec arg else String c "") ++ format_d t arg
  | String c t => String c (format_d t arg)
  end.

Definition found (r : option string) : bool :=
  match r with
  | Some _ => true
  | None => false
  end.

Definition html_http_header (content_len : Z) : string :=
  snprintf 128
    ("HTTP/1.1 200 OK" ++ CRLF ++ "Content-Type: text/html" ++ CRLF ++
     "Content-Length: " ++ dec content_len ++ CRLF ++
     "Connection: close" ++ CRLF ++ CRLF).

Definition json_http_header (content_len : Z) : string :=
  snprintf 128
    ("HTTP/1.1 200 OK" ++ CRLF ++ "Content-Type: application/json" ++ CRLF ++
     "Content-Length: " ++ dec content_len ++ CRLF ++
     "Connection: close" ++ CRLF ++ CRLF).

Definition empty_http_header : string :=
  "HTTP/1.1 200 OK" ++ CRLF ++ "Content-Length: 0" ++ CRLF ++ CRLF.

(** [send_full_response]: a complete HTML page. *)
Definition final_content (content_template : string) : string :=
  if found (strstr content_template "%d")
  then snprintf 4096 (format_d content_template MAX_CHART_POINTS)
  else take 4095 (strncpy 4096 content_template).

Definition send_full_response (content_template : string) : list string :=
  let content := final_content content_template in
  let content_len :=
    strlen HTML_HEADER + strlen HTML_NAV + strlen content + strlen HTML_FOOTER in
  [ send_chunk (html_http_header content_len);
    send_chunk HTML_HEADER;
    send_chunk HTML_NAV;
    send_chunk content;
    send_chunk HTML_FOOTER ].

(** [send_json_response]: a JSON reply. *)
Definition send_json_response (payload : string) : list string :=
  [ send_chunk (json_http_header (strlen payload)); send_chunk payload ].

(** The chain of [strcmp] tests of [parse_post_data]. *)
Definition assign (key : string) (value : float) (c : config) : config :=
  if String.eqb key "temp_offset" then set_temp_offset value c
  else if String.eqb key "temp_min" then set_temp_min value c
  else if String.eqb key "temp_max" then set_temp_max value c
  else if String.eqb key "umid_offset" then set_umid_offset value c
  else if String.eqb key "umid_min" then set_umid_min value c
  else if String.eqb key "umid_max" then set_umid_max value c
  else if String.eqb key "press_offset" then set_press_offset value c
  else if String.eqb key "press_min" then set_press_min value c
  else if String.eqb key "press_max" then set_press_max value c
  else if String.eqb key "alt_offset" then set_alt_offset value c
  else if String.eqb key "alt_min" then set_alt_min value c
  else if String.eqb key "alt_max" then set_alt_max value c
  else c.

(** The body of the [while (token != NULL)] loop for one token. *)
Definition parse_field (c : config) (token : string) : config :=
  match strchr token "=" with
  | Some (key, from) =>
      let value_str := skip 1 from in
      let value := to_float (atof value_str) in
      assign key value c
  | None => c
  end.

(** [parse_post_data]: the form data is copied into a 512-byte buffer and
    cut into tokens at [&]. *)
Definition parse_post_data (data : string) (c : config) : config :=
  let buffer := strncpy 511 data in
  fold_left parse_field (strtok buffer "&") c.

Definition f2 (x : float) : string := fmt_f 2 (to_double x).
Definition f3 (x : float) : string := fmt_f 3 (to_double x).

(** The text that the [/getconfig] format string produces, before it is cut
    to the buffer. *)
Definition getconfig_json (c : config) : string :=
  "{" ++ q "temp_offset" ++ ":" ++ f2 (g_temp_offset c) ++
  "," ++ q "temp_min" ++ ":" ++ f2 (g_temp_min c) ++
  "," ++ q "temp_max" ++ ":" ++ f2 (g_temp_max c) ++
  "," ++ q "umid_offset" ++ ":" ++ f2 (g_umid_offset c) ++
  "," ++ q "umid_min" ++ ":" ++ f2 (g_umid_min c) ++
  "," ++ q "umid_max" ++ ":" ++ f2 (g_umid_max c) ++
  "," ++ q "press_offset" ++ ":" ++ f2 (g_press_offset c) ++
  "," ++ q "press_min" ++ ":" ++ f2 (g_press_min c) ++
  "," ++ q "press_max" ++ ":" ++ f2 (g_press_max c) ++
  "," ++ q "alt_offset" ++ ":" ++ f2 (g_alt_offset c) ++
  "," ++ q "alt_min" ++ ":" ++ f2 (g_alt_min c) ++
  "," ++ q "alt_max" ++ ":" ++ f2 (g_alt_max c) ++ "}".

(** The text that the [/estado] format string produces. *)
Definition estado_json (r : readings) : string :=
  "{" ++ q "temperatura" ++ ":" ++ f2 (g_temperatura r) ++
  "," ++ q "umidade" ++ ":" ++ f2 (g_umidade r) ++
  "," ++ q "pressao" ++ ":" ++ f3 (g_pressao r) ++
  "," ++ q "altitude" ++ ":" ++ f2 (g_altitude r) ++ "}".

(** The text of the [/navigate] reply for a pending page. *)
Definition goto_json (page : string) : string :=
  "{" ++ q "goto" ++ ":" ++ q (cstr page) ++ "}".

Definition goto_null : string := "{" ++ q "goto" ++ ":null}".

(** The request as [strstr] sees it.  [pbuf_copy_partial] copies at most 1023
    bytes of the pbuf into [request_buffer] and only the last byte of the
    buffer is set to NUL: when the payload is shorter, the bytes after it are
    what that part of the stack held before the call, [stale] (NUL past its
    end).  The C string ends at the first NUL. *)
Definition request_buffer (stale payload : string) : string :=
  cstr (take 1023 (payload ++ skip (String.length payload) stale)).

(** [tcp_server_recv]: [p] is the pbuf's payload, [None] for a NULL pbuf (the
    peer closed the connection), and [stale] the former content of the stack
    where [request_buffer] lives.  The result is the new globals and the
    chunks written to the connection, which is then closed. *)
Definition tcp_server_recv (g : globals) (stale : string) (p : option string)
  : globals * list string :=
  match p with
  | None => (g, [])
  | Some payload =>
      let request := request_buffer stale payload in
      if found (strstr request "GET /navigate ") then
        match g_target_page (nav g) with
        | Some page =>
            let json_payload := snprintf 128 (goto_json page) in
            (with_nav {| g_current_page_index := g_current_page_index (nav g);
                         g_target_page := None;
                         g_last_press_time := g_last_press_time (nav g) |} g,
             send_json_response json_payload)
        | None =>
            (g, send_json_response (snprintf 128 goto_null))
        end
      else if found (strstr request "POST /config ") then
        let g' :=
          match strstr request (CRLF ++ CRLF) with
          | Some body => with_cfg (parse_post_data (skip 4 body) (cfg g)) g
          | None => g
          end in
        (g', [send_chunk empty_http_header])
      else if found (strstr request "GET /getconfig ") then
        (g, send_json_response (snprintf 512 (getconfig_json (cfg g))))
      else if found (strstr request "GET /estado ") then
        (g, send_json_response (snprintf 128 (estado_json (rd g))))
      else
        let content_to_send :=
          if found (strstr request "GET /config ") then HTML_CONTENT_CONFIG
          else if found (strstr request "GET /temperatura ")
                  || found (strstr request "GET /umidade ")
                  || found (strstr request "GET /pressao ")
                  || found (strstr request "GET /altitude ")
          then HTML_CONTENT_CHART_PAGE
          else HTML_CONTENT_INICIO in
        (g, send_full_response content_to_send)
  end.

(** ** The specification's side

    The definitions below follow the words of the specification; the theorems
    compare them with the code above. *)

Module Spec.

(** The page list has six entries. *)
Definition page_count : Z := 6.

(** [onButtonEdge]: inside the debounce window nothing changes; otherwise A
    maps the index [i] to [(i - 1 + 6) mod 6], B maps it to [(i + 1) mod 6],
    and the pending target becomes the page at the new index. *)
Definition on_button_edge (s : nav_state) (gpio now : Z) : nav_state :=
  if uint32 (now - g_last_press_time s) <? DEBOUNCE_MS then s
  else
    let i := g_current_page_index s in
    let i' := if gpio =? BUTTON_A then (i - 1 + page_count) mod page_count
              else if gpio =? BUTTON_B then (i + 1) mod page_count
              else i in
    {| g_current_page_index := i';
       g_target_page := nth_error G_PAGES (Z.to_nat i');
       g_last_press_time := now |}.

(** The mailbox is empty or holds one of the six routes. *)
Definition valid_slot (slot : option string) : Prop :=
  match slot with
  | Some page => In page G_PAGES
  | None => True
  end.

(** The [/navigate] reply for a mailbox content. *)
Definition goto_reply (slot : option string) : string :=
  match slot with
  | Some page => "{" ++ q "goto" ++ ":" ++ q page ++ "}"
  | None => "{" ++ q "goto" ++ ":null}"
  end.

(** A value lies outside its band when it is above the maximum or below the
    minimum, whatever the order of the two bounds. *)
Definition outside (v lo hi : float) : bool := f32_gt v hi || f32_lt v lo.

(** The twelve configuration scalars and their names on the HTTP surface. *)
Inductive config_key :=
| temp_offset | temp_min | temp_max
| umid_offset | umid_min | umid_max
| press_offset | press_min | press_max
| alt_offset | alt_min | alt_max.

Definition all_keys : list config_key :=
  [ temp_offset; temp_min; temp_max; umid_offset; umid_min; umid_max;
    press_offset; press_min; press_max; alt_offset; alt_min; alt_max ].

Definition key_name (k : config_key) : string :=
  match k with
  | temp_offset => "temp_offset" | temp_min => "temp_min" | temp_max => "temp_max"
  | umid_offset => "umid_offset" | umid_min => "umid_min" | umid_max => "umid_max"
  | press_offset => "press_offset" | press_min => "press_min" | press_max => "press_max"
  | alt_offset => "alt_offset" | alt_min => "alt_min" | alt_max => "alt_max"
  end.

Definition get (k : config_key) (c : config) : float :=
  match k with
  | temp_offset => g_temp_offset c | temp_min => g_temp_min c | temp_max => g_temp_max c
  | umid_offset => g_umid_offset c | umid_min => g_umid_min c | umid_max => g_umid_max c
  | press_offset => g_press_offset c | press_min => g_press_min c | press_max => g_press_max c
  | alt_offset => g_alt_offset c | alt_min => g_alt_min c | alt_max => g_alt_max c
  end.

(** The fields [key=value] of a form body: the body is split at every [&],
    each piece at its first [=]; a piece without [=] gives no field. *)
Definition fields (body : string) : list (string * string) :=
  flat_map (fun piece =>
              match strchr piece "=" with
              | Some (key, from) => [(key, skip 1 from)]
              | None => []
              end)
           (pieces "&" body).

(** The value text of the last field named [name], if there is one. *)
Definition value_of (name : string) (fs : list (string * string)) : option string :=
  fold_left (fun acc kv => if String.eqb (fst kv) name then Some (snd kv) else acc)
            fs None.

(** What the configuration is after a form body has been applied: a scalar
    named by a field takes the parse of the field's value text, the others
    keep their value. *)
Definition updated (k : config_key) (body : string) (c : config) : float :=
  match value_of (key_name k) (fields body) with
  | Some text => to_float (atof text)
  | None => get k c
  end.


(** The route table: method, path and handler. *)
Inductive handler :=
| Navigate | PostConfig | GetConfig | Estado | PageConfig | PageChart.

Definition route_table : list (string * string * handler) :=
  [ ("GET", "/navigate", Navigate);
    ("POST", "/config", PostConfig);
    ("GET", "/getconfig", GetConfig);
    ("GET", "/estado", Estado);
    ("GET", "/config", PageConfig);
    ("GET", "/temperatura", PageChart);
    ("GET", "/umidade", PageChart);
    ("GET", "/pressao", PageChart);
    ("GET", "/altitude", PageChart) ].

(** The method and the path of a request: the first two words of its request
    line, separated by single spaces. *)
Definition method_path (request : string) : option (string * string) :=
  match strchr request " " with
  | Some (method, from) =>
      match strchr (skip 1 from) " " with
      | Some (path, _) => Some (method, path)
      | None => None
      end
  | None => None
  end.

(** Exact match of a (method, path) pair against the table. *)
Definition lookup (mp : string * string) : option handler :=
  option_map snd
    (find (fun e => String.eqb (fst (fst e)) (fst mp) && String.eqb (snd (fst e)) (snd mp))
          route_table).

(** The text that the code searches the request for, for a table entry. *)
Definition pattern (e : string * string * handler) : string :=
  fst (fst e) ++ " " ++ snd (fst e) ++ " ".

(** The first table entry, in table order, whose pattern occurs somewhere in
    the request. *)
Definition first_occurring (request : string) : option handler :=
  option_map snd (find (fun e => found (strstr request (pattern e))) route_table).

(** What each handler does with the globals and the request. *)
Definition handle (h : option handler) (g : globals) (request : string)
  : globals * list string :=
  match h with
  | Some Navigate =>
      (with_nav {| g_current_page_index := g_current_page_index (nav g);
                   g_target_page := None;
                   g_last_press_time := g_last_press_time (nav g) |} g,
       send_json_response
         (snprintf 128 (match g_target_page (nav g) with
                        | Some page => goto_json page
                        | None => goto_null
                        end)))
  | Some PostConfig =>
      (match strstr request (CRLF ++ CRLF) with
       | Some body => with_cfg (parse_post_data (skip 4 body) (cfg g)) g
       | None => g
       end, [send_chunk empty_http_header])
  | Some GetConfig => (g, send_json_response (snprintf 512 (getconfig_json (cfg g))))
  | Some Estado => (g, send_json_response (snprintf 128 (estado_json (rd g))))
  | Some PageConfig => (g, send_full_response HTML_CONTENT_CONFIG)
  | Some PageChart => (g, send_full_response HTML_CONTENT_CHART_PAGE)
  | None => (g, send_full_response HTML_CONTENT_INICIO)
  end.

(** The value of the [Content-Length] header of a header block. *)
Definition content_length (header : string) : option Z :=
  match strstr header "Content-Length: " with
  | Some s =>
      let '(v, n, rest) := read_digits digit_val 10 (skip 16 s) 0 0 in
      if (0 <? n) && prefix CRLF rest then Some v else None
  | None => None
  end.

(** A header block ends with an empty line. *)
Definition ends_header (header : string) : bool :=
  let n := String.length header in
  String.eqb (skip (n - 4) header) (CRLF ++ CRLF).

Definition is_digit (c : ascii) : bool :=
  match digit_val c with Some _ => true | None => false end.

Fixpoint all_digits (s : string) : bool :=
  match s with
  | "" => true
  | String c t => is_digit c && all_digits t
  end.

(** Fixed notation with two decimals: an optional minus sign, at least one
    digit, a point and exactly two digits. *)
Definition two_decimals (text : string) : bool :=
  let t := match text with String "-" r => r | _ => text end in
  match strchr t "." with
  | Some (int_part, from) =>
      nonempty int_part && all_digits int_part
      && (String.length (skip 1 from) =? 2)%nat && all_digits (skip 1 from)
  | None => false
  end.

(** The text of the field [name] in a flat JSON object: what follows
    ["name":] up to the next comma or closing brace. *)
Definition json_field (name json : string) : option string :=
  match strstr json (q name ++ ":") with
  | Some s =>
      let v := skip (String.length name + 3) s in
      match strchr v ",", strchr v "}" with
      | Some (text, _), _ => Some text
      | None, Some (text, _) => Some text
      | None, None => None
      end
  | None => None
  end.

(** A flat JSON object: the members ["name":value] in the order of the list,
    separated by commas, between braces. *)
Fixpoint members (fs : list (string * string)) (close : string) : string :=
  match fs with
  | [] => close
  | [(name, value)] => q name ++ ":" ++ value ++ close
  | (name, value) :: rest => q name ++ ":" ++ value ++ "," ++ members rest close
  end.

Definition flat_json (fs : list (string * string)) : string :=
  "{" ++ members fs "}".

(** The twelve settings under their names, each in [%.2f] format. *)
Definition settings_fields (c : config) : list (string * string) :=
  map (fun k => (key_name k, f2 (get k c))) all_keys.

(** A header block that ends with an empty line and announces [n] bytes. *)
Definition framed (header : string) (n : nat) : bool :=
  ends_header header
  && match content_length header with
     | Some v => v =? Z.of_nat n
     | None => false
     end.

End Spec.

(** ** Decimal digits

    The most significant digit of a number written with the least
    significant digit first is not zero. *)
Fixpoint msd_ok (d : Decimal.uint) : bool :=
  match d with
  | Decimal.Nil => false
  | Decimal.D0 d' => msd_ok d'
  | Decimal.D1 d' | Decimal.D2 d' | Decimal.D3 d' | Decimal.D4 d' | Decimal.D5 d'
  | Decimal.D6 d' | Decimal.D7 d' | Decimal.D8 d' | Decimal.D9 d' =>
      match d' with Decimal.Nil => true | _ => msd_ok d' end
  end.

(** ** The buzzer: [tocar_buzzer] *)

Definition BUZZER_PIN : Z := 21.

(** What the buzzer loop does to the hardware, in order. *)
Inductive io :=
| gpio_put (pin : Z) (value : bool)
| sleep_us (us : Z).

(** [tocar_buzzer(freq, duracao)] for [uint] arguments: the trace of the
    loop, or [None] when one of the two divisions is a division by zero.
    The products wrap modulo 2^32. *)
Definition tocar_buzzer (freq duracao : Z) : option (list io) :=
  if freq =? 0 then Some []
  else
    let divisor := uint32 (freq * 2) in
    if divisor =? 0 then None
    else
      let periodo := 1000000 / divisor in
      if periodo =? 0 then None
      else
        let ciclos := uint32 (duracao * 1000) / periodo in
        Some (concat (repeat [ gpio_put BUZZER_PIN true; sleep_us periodo;
                               gpio_put BUZZER_PIN false; sleep_us periodo ]
                             (Z.to_nat ciclos))).

(** The microseconds a trace spends in [sleep_us]. *)
Fixpoint slept (trace : list io) : Z :=
  match trace with
  | [] => 0
  | sleep_us us :: rest => us + slept rest
  | gpio_put _ _ :: rest => slept rest
  end.

(** The level of [pin] after a trace, from the level [level] before it. *)
Fixpoint level_after (pin : Z) (level : bool) (trace : list io) : bool :=
  match trace with
  | [] => level
  | gpio_put p v :: rest => level_after pin (if p =? pin then v else level) rest
  | sleep_us _ :: rest => level_after pin level rest
  end.

(** The number of times a trace drives [pin] high. *)
Fixpoint rises (pin : Z) (trace : list io) : Z :=
  match trace with
  | [] => 0
  | gpio_put p true :: rest => (if p =? pin then 1 else 0) + rises pin rest
  | _ :: rest => rises pin rest
  end.

(** ** The LED matrix: [matrix_rgb] and [desenho_pio] *)

(** The integer part of a [double], towards zero; none for an infinity or a
    NaN. *)
Definition trunc (x : double) : option Z :=
  match x with
  | S754_zero _ => Some 0
  | S754_finite s m e =>
      Some (cond_Zopp s (if 0 <=? e then Zpos m * 2 ^ e else Zpos m / 2 ^ (- e)))
  | _ => None
  end.

(** The conversion [double -> unsigned char]: the integer part, which C
    defines only when it is one of 0..255. *)
Definition to_uchar (x : double) : option Z :=
  match trunc x with
  | Some t => if (0 <=? t) && (t <=? 255) then Some t else None
  | None => None
  end.

(** [matrix_rgb(r, g, b)]: the 32-bit word for one LED, [None] when one of
    the three conversions to [unsigned char] is undefined. *)
Definition matrix_rgb (r g b : double) : option Z :=
  match to_uchar (f64_mul r (f64_lit 255)),
        to_uchar (f64_mul g (f64_lit 255)),
        to_uchar (f64_mul b (f64_lit 255)) with
  | Some R, Some G, Some B =>
      Some (Z.lor (Z.lor (Z.shiftl G 24) (Z.shiftl R 16)) (Z.shiftl B 8))
  | _, _, _ => None
  end.

(** All the values of a list of results, if every one is defined. *)
Fixpoint sequence {A : Type} (l : list (option A)) : option (list A) :=
  match l with
  | [] => Some []
  | Some a :: rest =>
      match sequence rest with
      | Some r => Some (a :: r)
      | None => None
      end
  | None :: _ => None
  end.

(** The word for the pixel of intensity [d] under the colour scales. *)
Definition pixel (r g b : float) (d : double) : option Z :=
  matrix_rgb (f64_mul d (to_double r)) (f64_mul d (to_double g))
             (f64_mul d (to_double b)).

Section Matrix.

(** The number of LEDs, [NUM_PIXELS] of [lib/matriz.h], which is not among
    the sources. *)
Variable NUM_PIXELS : nat.

(** [desenho_pio(desenho, pio, sm, r, g, b)]: the words handed to
    [pio_sm_put_blocking], in order; [None] when an element is read past the
    end of [desenho] or a conversion is undefined. *)
Definition desenho_pio (desenho : list double) (r g b : float) : option (list Z) :=
  sequence
    (map (fun i => match nth_error desenho (NUM_PIXELS - 1 - i) with
                   | Some d => pixel r g b d
                   | None => None
                   end)
         (seq 0 NUM_PIXELS)).

End Matrix.

(** ** The three entry points together *)

(** What can happen to the globals: a button edge, a TCP receive callback,
    an iteration of the main loop.  Each is taken as one step. *)
Inductive event :=
| Edge (gpio now : Z)
| Receive (stale : string) (p : option string)
| Iterate (now_ms : Z) (smp : sample).

(** The globals and the local [last_sensor_read_ms] of [main]. *)
Record system := {
  last_sensor_read_ms : Z;
  vars : globals
}.

Definition system_init : system :=
  {| last_sensor_read_ms := 0; vars := globals_init |}.

Section System.

Variable pow : double -> double -> double.

(** One event; [None] when the button handler reads past the end of
    [G_PAGES]. *)
Definition step (st : system) (ev : event) : option system :=
  match ev with
  | Edge gpio now =>
      match gpio_callback (nav (vars st)) gpio now with
      | Done s => Some {| last_sensor_read_ms := last_sensor_read_ms st;
                          vars := with_nav s (vars st) |}
      | ReadPastEnd _ => None
      end
  | Receive stale p =>
      Some {| last_sensor_read_ms := last_sensor_read_ms st;
              vars := fst (tcp_server_recv (vars st) stale p) |}
  | Iterate now_ms smp =>
      let '(last, g, _) := loop_iteration pow now_ms smp (last_sensor_read_ms st) (vars st) in
      Some {| last_sensor_read_ms := last; vars := g |}
  end.

Fixpoint run (st : system) (events : list event) : option system :=
  match events with
  | [] => Some st
  | ev :: rest =>
      match step st ev with
      | Some st' => run st' rest
      | None => None
      end
  end.

End System.

(** ** Further notions for the properties *)


(** The [float] nearest to [k / 100]. *)
Definition centi (k : Z) : float :=
  to_float (dec_to_double (k <? 0) (Z.abs k) (-2)).

Definition same_float (x y : spec_float) : bool :=
  match x, y with
  | S754_zero s, S754_zero s' => Bool.eqb s s'
  | S754_infinity s, S754_infinity s' => Bool.eqb s s'
  | S754_nan, S754_nan => true
  | S754_finite s m e, S754_finite s' m' e' =>
      Bool.eqb s s' && Pos.eqb m m' && Z.eqb e e'
  | _, _ => false
  end.

(** [f] holds for the [n] integers from [k] on. *)
Fixpoint holds_from (f : Z -> bool) (n : nat) (k : Z) : bool :=
  match n with
  | O => true
  | S n' => f k && holds_from f n' (k + 1)
  end.

(** The page index is one of 0..5 and the mailbox is empty or holds the
    page at that index. *)
Definition nav_consistent (n : nav_state) : Prop :=
  0 <= g_current_page_index n < 6
  /\ (g_target_page n = None
      \/ g_target_page n = G_PAGES_at (g_current_page_index n)).

(** * Navigation *)

Lemma uint32_elapsed (last d : Z) :
  0 <= d < 2 ^ 32 -> uint32 (uint32 (last + d) - last) = d.
Proof.
  intros Hd. unfold uint32.
  rewrite Zminus_mod_idemp_l.
  replace (last + d - last) with d by ring.
  apply Z.mod_small. exact Hd.
Qed.

Lemma int32_small (x : Z) : - 2 ^ 31 <= x < 2 ^ 31 -> int32 x = x.
Proof.
  intros Hx. unfold int32.
  rewrite Z.mod_small by lia. ring.
Qed.

Lemma G_PAGES_at_nth (i : Z) :
  0 <= i < 6 -> G_PAGES_at i = nth_error G_PAGES (Z.to_nat i).
Proof.
  intros Hi. unfold G_PAGES_at.
  replace (Z.of_nat (List.length G_PAGES)) with 6 by reflexivity.
  destruct (Z.leb_spec 0 i); destruct (Z.ltb_spec i 6); try lia.
  reflexivity.
Qed.

Lemma G_PAGES_at_In (i : Z) (page : string) :
  G_PAGES_at i = Some page -> In page G_PAGES.
Proof.
  unfold G_PAGES_at.
  destruct ((0 <=? i) && (i <? Z.of_nat (List.length G_PAGES))); [|discriminate].
  apply nth_error_In.
Qed.

(** An edge inside the debounce window returns at once. *)
Lemma gpio_callback_debounced (s : nav_state) (gpio now : Z) :
  uint32 (now - g_last_press_time s) < DEBOUNCE_MS ->
  gpio_callback s gpio now = Done s.
Proof.
  intros H. unfold gpio_callback.
  destruct (Z.ltb_spec (uint32 (now - g_last_press_time s)) DEBOUNCE_MS); [reflexivity | lia].
Qed.

(** Whatever the handler stores in the mailbox is one of the six routes. *)
Lemma gpio_callback_keeps_slot_valid (s s' : nav_state) (gpio now : Z) :
  Spec.valid_slot (g_target_page s) ->
  gpio_callback s gpio now = Done s' ->
  Spec.valid_slot (g_target_page s').
Proof.
  intros Hs. unfold gpio_callback.
  destruct (uint32 (now - g_last_press_time s) <? DEBOUNCE_MS).
  - intros [= <-]. exact Hs.
  - match goal with |- context [G_PAGES_at ?i] => destruct (G_PAGES_at i) eqn:E end.
    + intros [= <-]. simpl. eapply G_PAGES_at_In; eauto.
    + discriminate.
Qed.

(** An accepted edge overwrites the mailbox with the page at the new index. *)
Lemma gpio_callback_overwrites_slot (s s' : nav_state) (gpio now : Z) :
  DEBOUNCE_MS <= uint32 (now - g_last_press_time s) ->
  gpio_callback s gpio now = Done s' ->
  g_target_page s' = G_PAGES_at (g_current_page_index s')
  /\ g_target_page s' <> None
  /\ g_last_press_time s' = now.
Proof.
  intros Hacc. unfold gpio_callback. cbv zeta.
  destruct (Z.ltb_spec (uint32 (now - g_last_press_time s)) DEBOUNCE_MS); [lia|].
  match goal with |- context [G_PAGES_at ?i] => destruct (G_PAGES_at i) eqn:E end.
  - intros [= <-].
    split; [symmetry; exact E | split; [simpl; discriminate | reflexivity]].
  - discriminate.
Qed.

(** Away from the two ends of the page list the handler does what the
    specification says: A from an index in 1..5 and B from an index in 0..4. *)
Lemma gpio_callback_inside_list (s : nav_state) (gpio now : Z) :
  DEBOUNCE_MS <= uint32 (now - g_last_press_time s) ->
  0 <= g_current_page_index s < 6 ->
  (gpio = BUTTON_A -> 1 <= g_current_page_index s) ->
  (gpio = BUTTON_B -> g_current_page_index s <= 4) ->
  gpio_callback s gpio now = Done (Spec.on_button_edge s gpio now).
Proof.
  intros Hacc Hi HA HB.
  unfold gpio_callback, Spec.on_button_edge, Spec.page_count.
  destruct (Z.ltb_spec (uint32 (now - g_last_press_time s)) DEBOUNCE_MS); [lia|].
  replace G_NUM_PAGES with 24 by reflexivity.
  destruct (Z.eqb_spec gpio BUTTON_A) as [EA|NA].
  - specialize (HA EA).
    rewrite int32_small by lia.
    destruct (Z.ltb_spec (g_current_page_index s - 1) 0); [lia|].
    replace ((g_current_page_index s - 1 + 6) mod 6) with (g_current_page_index s - 1).
    + rewrite G_PAGES_at_nth by lia.
      destruct (nth_error G_PAGES (Z.to_nat (g_current_page_index s - 1))) eqn:E; [reflexivity|].
      apply nth_error_None in E. simpl in E. lia.
    + replace (g_current_page_index s - 1 + 6) with (g_current_page_index s - 1 + 1 * 6) by ring.
      rewrite Z.mod_add by lia. symmetry. apply Z.mod_small. lia.
  - destruct (Z.eqb_spec gpio BUTTON_B) as [EB|NB].
    + specialize (HB EB).
      rewrite int32_small by lia.
      destruct (Z.geb_spec (g_current_page_index s + 1) 24); [lia|].
      rewrite (Z.mod_small (g_current_page_index s + 1) 6) by lia.
      rewrite G_PAGES_at_nth by lia.
      destruct (nth_error G_PAGES (Z.to_nat (g_current_page_index s + 1))) eqn:E; [reflexivity|].
      apply nth_error_None in E. simpl in E. lia.
    + rewrite G_PAGES_at_nth by lia.
      destruct (nth_error G_PAGES (Z.to_nat (g_current_page_index s))) eqn:E; [reflexivity|].
      apply nth_error_None in E. simpl in E. lia.
Qed.

(** With the wrap at [G_NUM_PAGES] the index ranges over 0..23; the handler
    returns normally exactly when the new index is one of 0..5. *)
Lemma gpio_callback_index_range (s s' : nav_state) (gpio now : Z) :
  0 <= g_current_page_index s < G_NUM_PAGES ->
  (gpio_callback s gpio now = Done s'
   -> DEBOUNCE_MS <= uint32 (now - g_last_press_time s)
   -> 0 <= g_current_page_index s' < 6)
  /\ (gpio_callback s gpio now = ReadPastEnd s'
      -> 6 <= g_current_page_index s' < G_NUM_PAGES).
Proof.
  replace G_NUM_PAGES with 24 by reflexivity.
  intros Hi. unfold gpio_callback. cbv zeta.
  destruct (Z.ltb_spec (uint32 (now - g_last_press_time s)) DEBOUNCE_MS).
  { split; [intros _ ?; lia | discriminate]. }
  replace G_NUM_PAGES with 24 by reflexivity.
  rewrite !int32_small by lia.
  set (index := if gpio =? BUTTON_A then _ else _).
  assert (Hindex : 0 <= index < 24).
  { subst index.
    destruct (gpio =? BUTTON_A);
      [destruct (Z.ltb_spec (g_current_page_index s - 1) 0); lia|].
    destruct (gpio =? BUTTON_B);
      [destruct (Z.geb_spec (g_current_page_index s + 1) 24); lia|]. lia. }
  unfold G_PAGES_at.
  replace (Z.of_nat (List.length G_PAGES)) with 6 by reflexivity.
  destruct (Z.leb_spec 0 index); [|lia].
  destruct (Z.ltb_spec index 6); cbn [andb].
  - destruct (nth_error G_PAGES (Z.to_nat index)) eqn:E.
    + split; [intros [= <-] _; simpl; lia | discriminate].
    + apply nth_error_None in E. simpl in E. lia.
  - split; [discriminate | intros [= <-]; simpl; lia].
Qed.

(** C1.  The claim: every accepted edge keeps the index in 0..5, A maps [i]
    to [(i - 1 + 6) mod 6], B maps [i] to [(i + 1) mod 6], and the pending
    target becomes the page at the new index.  The code wraps at
    [G_NUM_PAGES = sizeof(G_PAGES) = 24] instead of 6: button A on the home
    page sets the index to 23 and button B on the last page sets it to 6, and
    in both cases the target is read past the end of [G_PAGES], where the
    specification gives index 5 with [/altitude] and index 0 with [/]. *)
Theorem button_edge_wraps_at_sizeof :
  G_NUM_PAGES = 24
  /\ gpio_callback nav_init BUTTON_A 500
     = ReadPastEnd {| g_current_page_index := 23; g_target_page := None;
                      g_last_press_time := 500 |}
  /\ Spec.on_button_edge nav_init BUTTON_A 500
     = {| g_current_page_index := 5; g_target_page := Some "/altitude";
          g_last_press_time := 500 |}
  /\ run_edges nav_init
       [(BUTTON_B, 500); (BUTTON_B, 1000); (BUTTON_B, 1500);
        (BUTTON_B, 2000); (BUTTON_B, 2500)]
     = Done {| g_current_page_index := 5; g_target_page := Some "/altitude";
               g_last_press_time := 2500 |}
  /\ gpio_callback {| g_current_page_index := 5; g_target_page := Some "/altitude";
                      g_last_press_time := 2500 |} BUTTON_B 3000
     = ReadPastEnd {| g_current_page_index := 6; g_target_page := Some "/altitude";
                      g_last_press_time := 3000 |}
  /\ Spec.on_button_edge {| g_current_page_index := 5; g_target_page := Some "/altitude";
                            g_last_press_time := 2500 |} BUTTON_B 3000
     = {| g_current_page_index := 0; g_target_page := Some "/";
          g_last_press_time := 3000 |}.
Proof.
  repeat split; vm_compute; reflexivity.
Qed.

(** C7.  A button edge that arrives [d < 500] ms after the last accepted
    press (the millisecond counter taken modulo 2^32) returns without any
    change to the index, the press time or the pending target; the same
    holds for every edge of a sequence inside the window, since none of them
    moves the press time. *)
Theorem debounce_window_is_noop (s : nav_state) (edges : list (Z * Z)) :
  Forall (fun e => exists d, 0 <= d < DEBOUNCE_MS
                             /\ snd e = uint32 (g_last_press_time s + d)) edges ->
  Forall (fun e => gpio_callback s (fst e) (snd e) = Done s) edges
  /\ run_edges s edges = Done s.
Proof.
  induction 1 as [|[gpio now] rest [d [Hd Hnow]] _ [IH1 IH2]]; simpl in *.
  - split; constructor.
  - assert (E : gpio_callback s gpio now = Done s).
    { apply gpio_callback_debounced. subst now.
      rewrite uint32_elapsed; unfold DEBOUNCE_MS in *; lia. }
    split; [constructor; assumption|].
    rewrite E. exact IH2.
Qed.

Lemma debounce_window_is_noop_witness :
  let s := {| g_current_page_index := 2; g_target_page := Some "/temperatura";
              g_last_press_time := 4294967000 |} in
  let edges := [(BUTTON_A, 4294967100); (BUTTON_B, 100); (BUTTON_A, 203)] in
  Forall (fun e => gpio_callback s (fst e) (snd e) = Done s) edges
  /\ run_edges s edges = Done s.
Proof.
  intros s edges.
  apply (debounce_window_is_noop s edges).
  repeat constructor.
  - exists 100. split; [unfold DEBOUNCE_MS; lia | reflexivity].
  - exists 396. split; [unfold DEBOUNCE_MS; lia | reflexivity].
  - exists 499. split; [unfold DEBOUNCE_MS; lia | reflexivity].
Defined.

(** * The sample cycle *)

Lemma run_offset_stores (pow : double -> double -> double) (smp : sample) (c : config)
      (r : readings) :
  run_stores (offset_stores pow smp c) r
  = {| g_temperatura := f32_add (temperature (data_aht smp)) (g_temp_offset c);
       g_umidade := f32_add (humidity (data_aht smp)) (g_umid_offset c);
       g_pressao := to_float (f64_add (f64_div (to_double (pressure_pa smp)) (f64_lit 1000))
                                      (to_double (g_press_offset c)));
       g_altitude := f32_add (calculate_altitude pow (pressure_pa smp)) (g_alt_offset c) |}.
Proof. reflexivity. Qed.

(** C3.  After a sample cycle the alert flag is true exactly when the
    calibrated temperature is above [g_temp_max] or below [g_temp_min], or the
    calibrated humidity is above [g_umid_max] or below [g_umid_min].  Written
    on the inputs of the cycle, the flag depends on the AHT20 data and the
    temperature and humidity settings only: the pressure, the altitude and
    their settings do not occur.  No order between minimum and maximum is
    assumed. *)
Theorem alert_iff_temperature_or_humidity_outside
        (pow : double -> double -> double) (smp : sample) (g : globals) :
  let '(g', alerta, drawn) := sample_cycle pow smp g in
  (alerta = true <->
     f32_gt (g_temperatura (rd g')) (g_temp_max (cfg g')) = true
     \/ f32_lt (g_temperatura (rd g')) (g_temp_min (cfg g')) = true
     \/ f32_gt (g_umidade (rd g')) (g_umid_max (cfg g')) = true
     \/ f32_lt (g_umidade (rd g')) (g_umid_min (cfg g')) = true)
  /\ alerta
     = Spec.outside (f32_add (temperature (data_aht smp)) (g_temp_offset (cfg g)))
                    (g_temp_min (cfg g)) (g_temp_max (cfg g))
       || Spec.outside (f32_add (humidity (data_aht smp)) (g_umid_offset (cfg g)))
                       (g_umid_min (cfg g)) (g_umid_max (cfg g))
  /\ drawn = (if alerta then [alerta1; alerta1] else [matrizVazia]).
Proof.
  unfold sample_cycle, em_alerta, Spec.outside.
  rewrite run_offset_stores.
  cbn [with_rd rd cfg g_temperatura g_umidade].
  set (t := f32_add (temperature (data_aht smp)) (g_temp_offset (cfg g))).
  set (u := f32_add (humidity (data_aht smp)) (g_umid_offset (cfg g))).
  destruct (f32_gt t (g_temp_max (cfg g))), (f32_lt t (g_temp_min (cfg g))),
           (f32_gt u (g_umid_max (cfg g))), (f32_lt u (g_umid_min (cfg g)));
    cbn; repeat split; auto; intuition discriminate.
Qed.

(** * The dispatcher *)

Lemma with_nav_cleared_empty (g : globals) :
  g_target_page (nav g) = None ->
  with_nav {| g_current_page_index := g_current_page_index (nav g);
              g_target_page := None;
              g_last_press_time := g_last_press_time (nav g) |} g = g.
Proof.
  destruct g as [[i t l] c r]. simpl. intros ->. reflexivity.
Qed.

(** The code's chain of [strstr] tests is a search of the route table, in
    table order, for the first entry whose pattern occurs in the request. *)
Lemma dispatch_by_first_occurrence (g : globals) (stale payload : string) :
  tcp_server_recv g stale (Some payload)
  = Spec.handle (Spec.first_occurring (request_buffer stale payload)) g (request_buffer stale payload).
Proof.
  unfold tcp_server_recv, Spec.first_occurring, Spec.route_table.
  set (request := request_buffer stale payload).
  cbn [find].
  change (Spec.pattern ("GET", "/navigate", Spec.Navigate)) with "GET /navigate ".
  change (Spec.pattern ("POST", "/config", Spec.PostConfig)) with "POST /config ".
  change (Spec.pattern ("GET", "/getconfig", Spec.GetConfig)) with "GET /getconfig ".
  change (Spec.pattern ("GET", "/estado", Spec.Estado)) with "GET /estado ".
  change (Spec.pattern ("GET", "/config", Spec.PageConfig)) with "GET /config ".
  change (Spec.pattern ("GET", "/temperatura", Spec.PageChart)) with "GET /temperatura ".
  change (Spec.pattern ("GET", "/umidade", Spec.PageChart)) with "GET /umidade ".
  change (Spec.pattern ("GET", "/pressao", Spec.PageChart)) with "GET /pressao ".
  change (Spec.pattern ("GET", "/altitude", Spec.PageChart)) with "GET /altitude ".
  destruct (found (strstr request "GET /navigate ")).
  { cbn [option_map snd Spec.handle].
    destruct (g_target_page (nav g)) eqn:E; [reflexivity|].
    rewrite with_nav_cleared_empty by exact E. reflexivity. }
  destruct (found (strstr request "POST /config ")); [reflexivity|].
  destruct (found (strstr request "GET /getconfig ")); [reflexivity|].
  destruct (found (strstr request "GET /estado ")); [reflexivity|].
  destruct (found (strstr request "GET /config ")); [reflexivity|].
  destruct (found (strstr request "GET /temperatura ")); [reflexivity|].
  destruct (found (strstr request "GET /umidade ")); [reflexivity|].
  destruct (found (strstr request "GET /pressao ")); [reflexivity|].
  destruct (found (strstr request "GET /altitude ")); reflexivity.
Qed.

(** No handler writes a reading, and only the [/navigate] handler writes a
    navigation variable, only the [/config] POST handler a setting. *)
Lemma handle_frame (h : option Spec.handler) (g : globals) (request : string) :
  rd (fst (Spec.handle h g request)) = rd g
  /\ (h <> Some Spec.PostConfig -> cfg (fst (Spec.handle h g request)) = cfg g)
  /\ (h <> Some Spec.Navigate -> nav (fst (Spec.handle h g request)) = nav g).
Proof.
  destruct h as [[]|]; cbn [Spec.handle fst]; repeat split; try reflexivity;
    try congruence;
    destruct (strstr request (CRLF ++ CRLF)); reflexivity.
Qed.

Lemma tcp_server_recv_keeps_readings (g : globals) (stale : string) (p : option string) :
  rd (fst (tcp_server_recv g stale p)) = rd g.
Proof.
  destruct p as [payload|]; [|reflexivity].
  rewrite dispatch_by_first_occurrence. apply handle_frame.
Qed.

(** C5.  The sample cycle performs four stores, to the temperature, the
    humidity, the pressure and the altitude in this order; afterwards each
    reading is the raw value of the cycle plus the offset of its metric,
    whatever it held before (the pressure is divided by 1000 and summed in
    [double], the altitude comes from [calculate_altitude]), and the settings
    and the navigation variables are as before.  The loop runs the cycle when
    at least 2000 ms have passed and otherwise leaves the globals alone.  The
    readings have no other writer: the HTTP callback returns them unchanged,
    and the button handler works on the navigation variables only. *)
Theorem sample_cycle_overwrites_readings
        (pow : double -> double -> double) (now last : Z) (smp : sample) (g : globals) :
  map fst (offset_stores pow smp (cfg g)) = [Temperatura; Umidade; Pressao; Altitude]
  /\ (let '(g', _, _) := sample_cycle pow smp g in
      rd g' = {| g_temperatura := f32_add (temperature (data_aht smp)) (g_temp_offset (cfg g));
                 g_umidade := f32_add (humidity (data_aht smp)) (g_umid_offset (cfg g));
                 g_pressao :=
                   to_float (f64_add (f64_div (to_double (pressure_pa smp)) (f64_lit 1000))
                                     (to_double (g_press_offset (cfg g))));
                 g_altitude :=
                   f32_add (calculate_altitude pow (pressure_pa smp)) (g_alt_offset (cfg g)) |}
      /\ cfg g' = cfg g /\ nav g' = nav g)
  /\ (let '(last', g', _) := loop_iteration pow now smp last g in
      if 2000 <=? uint32 (now - last)
      then last' = now /\ g' = fst (fst (sample_cycle pow smp g))
      else last' = last /\ g' = g)
  /\ (forall stale p, rd (fst (tcp_server_recv g stale p)) = rd g).
Proof.
  split; [reflexivity|].
  split.
  { unfold sample_cycle. rewrite run_offset_stores. repeat split. }
  split.
  { unfold loop_iteration.
    destruct (2000 <=? uint32 (now - last)); [|split; reflexivity].
    unfold sample_cycle. split; reflexivity. }
  intros stale p. apply tcp_server_recv_keeps_readings.
Qed.

(** For the six routes the reply of [/navigate] fits its 128-byte buffer and
    is sent whole, behind a header that carries its length. *)
Lemma goto_payload_fits (slot : option string) :
  Spec.valid_slot slot ->
  snprintf 128 (match slot with Some page => goto_json page | None => goto_null end)
  = Spec.goto_reply slot
  /\ send_json_response (Spec.goto_reply slot)
     = [ json_http_header (Z.of_nat (String.length (Spec.goto_reply slot)));
         Spec.goto_reply slot ].
Proof.
  destruct slot as [page|]; simpl.
  - intros [<-|[<-|[<-|[<-|[<-|[<-|[]]]]]]]; split; vm_compute; reflexivity.
  - intros _. split; vm_compute; reflexivity.
Qed.

(** C2.  A request in which [GET /navigate ] occurs reads and clears the
    mailbox: the reply is [{"goto":"<route>"}] for the route that is pending
    ([{"goto":null}] when none is), sent behind a JSON header with its
    length; afterwards the mailbox is empty and nothing else has changed, so
    the next such request gets [{"goto":null}] and changes nothing.  With the
    globals as initialized the reply is [{"goto":null}].  The mailbox holds
    what the last accepted button edge stored, one of the six routes. *)
Theorem navigate_reads_and_clears_mailbox
        (g : globals) (stale payload stale' payload' : string) :
  found (strstr (request_buffer stale payload) "GET /navigate ") = true ->
  found (strstr (request_buffer stale' payload') "GET /navigate ") = true ->
  Spec.valid_slot (g_target_page (nav g)) ->
  let first := tcp_server_recv g stale (Some payload) in
  let second := tcp_server_recv (fst first) stale' (Some payload') in
  snd first = [ json_http_header
                  (Z.of_nat (String.length (Spec.goto_reply (g_target_page (nav g)))));
                Spec.goto_reply (g_target_page (nav g)) ]
  /\ g_target_page (nav (fst first)) = None
  /\ g_current_page_index (nav (fst first)) = g_current_page_index (nav g)
  /\ g_last_press_time (nav (fst first)) = g_last_press_time (nav g)
  /\ cfg (fst first) = cfg g
  /\ rd (fst first) = rd g
  /\ snd second = [ json_http_header (Z.of_nat (String.length (Spec.goto_reply None)));
                    Spec.goto_reply None ]
  /\ fst second = fst first
  /\ snd (tcp_server_recv globals_init stale (Some payload))
     = [ json_http_header (Z.of_nat (String.length (Spec.goto_reply None)));
         Spec.goto_reply None ].
Proof.
  intros Hnav Hnav' Hslot first second.
  assert (Hcall : forall g0, tcp_server_recv g0 stale (Some payload)
                             = Spec.handle (Some Spec.Navigate) g0
                                           (request_buffer stale payload)).
  { intros g0. rewrite dispatch_by_first_occurrence.
    unfold Spec.first_occurring, Spec.route_table. cbn [find].
    change (Spec.pattern ("GET", "/navigate", Spec.Navigate)) with "GET /navigate ".
    rewrite Hnav. reflexivity. }
  assert (Hcall' : forall g0, tcp_server_recv g0 stale' (Some payload')
                              = Spec.handle (Some Spec.Navigate) g0
                                            (request_buffer stale' payload')).
  { intros g0. rewrite dispatch_by_first_occurrence.
    unfold Spec.first_occurring, Spec.route_table. cbn [find].
    change (Spec.pattern ("GET", "/navigate", Spec.Navigate)) with "GET /navigate ".
    rewrite Hnav'. reflexivity. }
  subst second first. rewrite Hcall', !Hcall.
  cbn [Spec.handle fst snd with_nav nav cfg rd g_target_page g_current_page_index
       g_last_press_time].
  destruct (goto_payload_fits _ Hslot) as [E1 E2].
  destruct (goto_payload_fits None I) as [N1 N2].
  rewrite E1, E2, N1, N2.
  repeat split; try reflexivity.
Qed.

Lemma navigate_reads_and_clears_mailbox_witness :
  let g := with_nav {| g_current_page_index := 1; g_target_page := Some "/config";
                       g_last_press_time := 500 |} globals_init in
  let payload := "GET /navigate HTTP/1.1" ++ CRLF ++ "Host: pico" ++ CRLF ++ CRLF in
  wire (snd (tcp_server_recv g "" (Some payload)))
  = "HTTP/1.1 200 OK" ++ CRLF ++ "Content-Type: application/json" ++ CRLF ++
    "Content-Length: 18" ++ CRLF ++ "Connection: close" ++ CRLF ++ CRLF ++
    "{" ++ q "goto" ++ ":" ++ q "/config" ++ "}"
  /\ wire (snd (tcp_server_recv (fst (tcp_server_recv g "" (Some payload))) "" (Some payload)))
     = "HTTP/1.1 200 OK" ++ CRLF ++ "Content-Type: application/json" ++ CRLF ++
       "Content-Length: 13" ++ CRLF ++ "Connection: close" ++ CRLF ++ CRLF ++
       "{" ++ q "goto" ++ ":null}".
Proof.
  intros g payload.
  destruct (navigate_reads_and_clears_mailbox g "" payload "" payload)
    as (R1 & _ & _ & _ & _ & _ & R2 & _).
  - reflexivity.
  - reflexivity.
  - simpl. auto.
  - cbv zeta in R1, R2. rewrite R1, R2. split; reflexivity.
Defined.

(** C10.  A request in which [POST /config ] occurs and that has no empty
    line leaves the twelve settings as they are; when the request reaches the
    POST handler (no [GET /navigate ] occurs in it) no global changes at all
    and the reply is the empty 200 response. *)
Theorem config_post_without_blank_line (g : globals) (stale payload : string) :
  found (strstr (request_buffer stale payload) "POST /config ") = true ->
  strstr (request_buffer stale payload) (CRLF ++ CRLF) = None ->
  cfg (fst (tcp_server_recv g stale (Some payload))) = cfg g
  /\ (found (strstr (request_buffer stale payload) "GET /navigate ") = false ->
      tcp_server_recv g stale (Some payload) = (g, [empty_http_header])
      /\ wire [empty_http_header]
         = "HTTP/1.1 200 OK" ++ CRLF ++ "Content-Length: 0" ++ CRLF ++ CRLF).
Proof.
  intros Hpost Hsep. unfold tcp_server_recv.
  destruct (found (strstr (request_buffer stale payload) "GET /navigate ")).
  - split; [|discriminate].
    destruct (g_target_page (nav g)); reflexivity.
  - rewrite Hpost, Hsep. repeat split.
Qed.

(** The condition of C10 is one on the buffer, not on the bytes received:
    after a short request the buffer still holds the tail of what was there
    before, and an empty line and form data in that tail are parsed. *)
Lemma stale_form_data_is_parsed :
  let stale := "POST /config HTTP/1.1" ++ CRLF ++ "Host: pico" ++ CRLF ++ CRLF ++
               "temp_min=5" in
  let payload := "POST /config HTTP/1.1" ++ CRLF ++ "Host: pico" ++ CRLF in
  strstr payload (CRLF ++ CRLF) = None
  /\ g_temp_min (cfg (fst (tcp_server_recv globals_init stale (Some payload))))
     = f32_lit 5.
Proof.
  split; vm_compute; reflexivity.
Qed.

Lemma config_post_without_blank_line_witness :
  let payload := "POST /config HTTP/1.1" ++ CRLF ++ "Content-Length: 12" ++ CRLF in
  tcp_server_recv globals_init "" (Some payload) = (globals_init, [empty_http_header]).
Proof.
  intros payload.
  destruct (config_post_without_blank_line globals_init "" payload) as [_ H].
  - reflexivity.
  - reflexivity.
  - apply H. reflexivity.
Defined.

(** C6, as stated, fails: the (method, path) pair of the request line does
    not decide the route.  A request whose request line is
    [GET /doesnotexist HTTP/1.1] and that carries [GET /estado ] in a header,
    and a request with the method [XGET] and the path [/estado], match no
    table entry, yet both are answered with the [/estado] JSON object, not
    with the home page. *)
Lemma header_text_decides_route :
  let request := "GET /doesnotexist HTTP/1.1" ++ CRLF ++
                 "X-Note: GET /estado " ++ CRLF ++ CRLF in
  let request' := "XGET /estado HTTP/1.1" ++ CRLF ++ CRLF in
  (Spec.method_path (request_buffer "" request) = Some ("GET", "/doesnotexist")
   /\ Spec.lookup ("GET", "/doesnotexist") = None
   /\ Spec.handle None globals_init (request_buffer "" request)
      = (globals_init, send_full_response HTML_CONTENT_INICIO)
   /\ tcp_server_recv globals_init "" (Some request)
      = (globals_init, send_json_response (estado_json rd_init))
   /\ tcp_server_recv globals_init "" (Some request)
      <> (globals_init, send_full_response HTML_CONTENT_INICIO))
  /\ (Spec.method_path (request_buffer "" request') = Some ("XGET", "/estado")
      /\ Spec.lookup ("XGET", "/estado") = None
      /\ tcp_server_recv globals_init "" (Some request')
         = (globals_init, send_json_response (estado_json rd_init))
      /\ tcp_server_recv globals_init "" (Some request')
         <> (globals_init, send_full_response HTML_CONTENT_INICIO)).
Proof.
  intros request request'.
  assert (E : tcp_server_recv globals_init "" (Some request)
              = (globals_init, send_json_response (estado_json rd_init)))
    by (vm_compute; reflexivity).
  assert (E' : tcp_server_recv globals_init "" (Some request')
               = (globals_init, send_json_response (estado_json rd_init)))
    by (vm_compute; reflexivity).
  repeat split; try (vm_compute; reflexivity).
  - rewrite E. intros [= H].
  - rewrite E'. intros [= H].
Qed.

(** C6, amended.  The dispatcher searches the request buffer for the text
    [<METHOD> <path> ] of each table entry, byte for byte, and runs the
    handler of the first entry, in table order, whose text occurs anywhere
    in the buffer.  When none occurs the reply is the home page: an HTML
    header with status 200 and the length 3199, then the head, the
    navigation bar, the home-page template and the footer.  The search is
    case-sensitive: [get /estado ] is no occurrence of [GET /estado ]. *)
Theorem dispatch_is_first_occurring_pattern (g : globals) (stale payload : string) :
  tcp_server_recv g stale (Some payload)
  = Spec.handle (Spec.first_occurring (request_buffer stale payload)) g (request_buffer stale payload)
  /\ Spec.handle None g (request_buffer stale payload)
     = (g, [ "HTTP/1.1 200 OK" ++ CRLF ++ "Content-Type: text/html" ++ CRLF ++
             "Content-Length: 3199" ++ CRLF ++ "Connection: close" ++ CRLF ++ CRLF;
             HTML_HEADER; HTML_NAV; HTML_CONTENT_INICIO; HTML_FOOTER ])
  /\ Spec.first_occurring (request_buffer "" ("GET /doesnotexist HTTP/1.1" ++ CRLF ++ CRLF))
     = None
  /\ Spec.first_occurring (request_buffer "" ("get /estado HTTP/1.1" ++ CRLF ++ CRLF))
     = None.
Proof.
  split; [apply dispatch_by_first_occurrence|].
  split.
  { cbn [Spec.handle]. f_equal. }
  split; vm_compute; reflexivity.
Qed.

(** * Response framing *)

Lemma length_append (a b : string) :
  String.length (a ++ b) = (String.length a + String.length b)%nat.
Proof.
  induction a as [|c a IH]; simpl; [reflexivity | now rewrite IH].
Qed.

Lemma length_take (n : nat) (s : string) : (String.length (take n s) <= n)%nat.
Proof.
  revert s. induction n as [|n IH]; intros [|c s]; simpl; try lia.
  specialize (IH s). lia.
Qed.

Lemma length_cstr (s : string) : (String.length (cstr s) <= String.length s)%nat.
Proof.
  induction s as [|c s IH]; simpl; [lia|].
  destruct (Ascii.eqb c NUL); simpl; lia.
Qed.

(** Every length that a JSON payload can have, and every length that a page
    can have, is announced correctly by its header: checked for each length
    in turn. *)
Lemma json_headers_framed :
  forallb (fun n => Spec.framed (send_chunk (json_http_header (Z.of_nat n))) n)
          (seq 0 512) = true.
Proof. vm_compute. reflexivity. Qed.

Lemma html_headers_framed :
  forallb (fun n => Spec.framed (send_chunk (html_http_header (Z.of_nat n))) n)
          (seq 0 (Z.to_nat 6022)) = true.
Proof. vm_compute. reflexivity. Qed.

Lemma framed_spec (header : string) (n : nat) :
  Spec.framed header n = true ->
  Spec.ends_header header = true /\ Spec.content_length header = Some (Z.of_nat n).
Proof.
  unfold Spec.framed. intros H. apply andb_prop in H as [H1 H2].
  split; [exact H1|].
  destruct (Spec.content_length header) as [v|]; [|discriminate].
  apply Z.eqb_eq in H2. now subst.
Qed.

Lemma json_response_framed (payload : string) :
  (String.length (cstr payload) <= 511)%nat ->
  exists header body,
    send_json_response payload = header :: body
    /\ Spec.ends_header header = true
    /\ Spec.content_length header = Some (Z.of_nat (String.length (wire body))).
Proof.
  intros Hlen.
  exists (send_chunk (json_http_header (strlen payload))), [send_chunk payload].
  split; [reflexivity|].
  replace (String.length (wire [send_chunk payload])) with (String.length (cstr payload)).
  - apply framed_spec.
    pose proof json_headers_framed as H.
    rewrite forallb_forall in H.
    apply (H (String.length (cstr payload))).
    apply in_seq. lia.
  - unfold wire, send_chunk. cbn [fold_right].
    rewrite length_append. simpl. lia.
Qed.

Lemma length_final_content (template : string) :
  (String.length (cstr (final_content template)) <= 4095)%nat.
Proof.
  etransitivity; [apply length_cstr|].
  unfold final_content, snprintf.
  destruct (found (strstr template "%d")); apply length_take.
Qed.

Lemma html_response_framed (template : string) :
  exists header body,
    send_full_response template = header :: body
    /\ Spec.ends_header header = true
    /\ Spec.content_length header = Some (Z.of_nat (String.length (wire body))).
Proof.
  pose proof (length_final_content template) as Hlen.
  unfold send_full_response.
  set (content := final_content template) in *.
  eexists. eexists. split; [reflexivity|].
  assert (EH : String.length (cstr HTML_HEADER) = 943%nat) by (vm_compute; reflexivity).
  assert (EN : String.length (cstr HTML_NAV) = 869%nat) by (vm_compute; reflexivity).
  assert (EF : String.length (cstr HTML_FOOTER) = 114%nat) by (vm_compute; reflexivity).
  assert (EW : String.length
                 (wire [send_chunk HTML_HEADER; send_chunk HTML_NAV;
                        send_chunk content; send_chunk HTML_FOOTER])
               = (1926 + String.length (cstr content))%nat).
  { unfold wire, send_chunk. cbn [fold_right].
    rewrite !length_append, EH, EN, EF. simpl. lia. }
  rewrite EW.
  replace (strlen HTML_HEADER + strlen HTML_NAV + strlen content + strlen HTML_FOOTER)
    with (Z.of_nat (1926 + String.length (cstr content))).
  - apply framed_spec.
    pose proof html_headers_framed as H.
    rewrite forallb_forall in H.
    apply H. apply in_seq. lia.
  - unfold strlen. rewrite EH, EN, EF. lia.
Qed.

(** C8.  Every response starts with a header chunk that ends with an empty
    line, written before any chunk of the body, and the number after
    [Content-Length: ] in it is the number of bytes of the body chunks that
    follow: for the JSON replies, for the HTML pages and for the empty reply
    of the POST handler.  ([tcp_write] queues every chunk it is given; the
    code does not look at its result.) *)
Theorem content_length_is_body_length (g : globals) (stale payload : string) :
  exists header body,
    snd (tcp_server_recv g stale (Some payload)) = header :: body
    /\ Spec.ends_header header = true
    /\ Spec.content_length header = Some (Z.of_nat (String.length (wire body))).
Proof.
  rewrite dispatch_by_first_occurrence.
  destruct (Spec.first_occurring (request_buffer stale payload)) as [[]|];
    cbn [Spec.handle snd].
  - apply json_response_framed.
    etransitivity; [apply length_cstr|]. etransitivity; [apply length_take|]. simpl; lia.
  - exists (send_chunk empty_http_header), [].
    repeat split; vm_compute; reflexivity.
  - apply json_response_framed.
    etransitivity; [apply length_cstr|]. etransitivity; [apply length_take|]. simpl; lia.
  - apply json_response_framed.
    etransitivity; [apply length_cstr|]. etransitivity; [apply length_take|]. simpl; lia.
  - apply html_response_framed.
  - apply html_response_framed.
  - apply html_response_framed.
Qed.

(** * The configuration form *)

Lemma get_assign (k : Spec.config_key) (key : string) (v : float) (c : config) :
  Spec.get k (assign key v c)
  = if String.eqb key (Spec.key_name k) then v else Spec.get k c.
Proof.
  unfold assign.
  destruct k; cbn [Spec.get Spec.key_name];
    repeat match goal with
           | |- context [String.eqb key ?s] =>
               destruct (String.eqb_spec key s) as [->|?]
           end;
    try reflexivity; congruence.
Qed.

(** The value that a list of tokens leaves in a scalar: the parse of the last
    field that names it. *)
Lemma fold_parse_field (k : Spec.config_key) (tokens : list string) (c : config) :
  Spec.get k (fold_left parse_field tokens c)
  = match Spec.value_of (Spec.key_name k)
            (flat_map (fun piece =>
                         match strchr piece "=" with
                         | Some (key, from) => [(key, skip 1 from)]
                         | None => []
                         end) tokens) with
    | Some text => to_float (atof text)
    | None => Spec.get k c
    end.
Proof.
  unfold Spec.value_of.
  induction tokens as [|token tokens IH] using rev_ind; [reflexivity|].
  rewrite fold_left_app, flat_map_app, fold_left_app.
  cbn [fold_left flat_map]. rewrite app_nil_r.
  unfold parse_field at 1.
  destruct (strchr token "=") as [[key from]|]; cbn [fold_left fst snd].
  - rewrite get_assign.
    destruct (String.eqb key (Spec.key_name k)); [reflexivity | exact IH].
  - exact IH.
Qed.

(** Empty pieces carry no field, so [strtok]'s skipping of empty tokens does
    not change the fields. *)
Lemma fields_of_tokens (s : string) :
  flat_map (fun piece =>
              match strchr piece "=" with
              | Some (key, from) => [(key, skip 1 from)]
              | None => []
              end) (strtok s "&")
  = Spec.fields s.
Proof.
  unfold strtok, Spec.fields.
  induction (pieces "&" s) as [|p ps IH]; [reflexivity|].
  destruct p as [|a p]; cbn [filter nonempty flat_map].
  - simpl. exact IH.
  - rewrite IH. reflexivity.
Qed.

Lemma cstr_idempotent (s : string) : cstr (cstr s) = cstr s.
Proof.
  induction s as [|c s IH]; [reflexivity|].
  simpl. destruct (Ascii.eqb c NUL) eqn:E; [reflexivity|].
  simpl. rewrite E, IH. reflexivity.
Qed.

Lemma cstr_suffix (a b : string) : cstr (a ++ b) = a ++ b -> cstr b = b.
Proof.
  induction a as [|c a IH]; simpl; [auto|].
  destruct (Ascii.eqb c NUL); [discriminate|].
  intros [= H]. auto.
Qed.

Lemma strstr_suffix (needle hay s : string) :
  strstr hay needle = Some s -> exists before, hay = before ++ s.
Proof.
  induction hay as [|c hay IH]; cbn [strstr].
  - destruct (prefix needle ""); [|discriminate].
    intros [= <-]. exists "". reflexivity.
  - destruct (prefix needle (String c hay)).
    + intros [= <-]. exists "". reflexivity.
    + intros H. destruct (IH H) as [before ->].
      exists (String c before). reflexivity.
Qed.

(** The text after the empty line of a request holds no NUL. *)
Lemma request_body_is_cstr (stale payload body : string) :
  strstr (request_buffer stale payload) (CRLF ++ CRLF) = Some (CRLF ++ CRLF ++ body) ->
  cstr body = body.
Proof.
  intros H. apply strstr_suffix in H as [before E].
  assert (N : cstr (request_buffer stale payload) = request_buffer stale payload)
    by apply cstr_idempotent.
  rewrite E in N. apply cstr_suffix in N.
  apply (cstr_suffix (CRLF ++ CRLF)). exact N.
Qed.


Lemma parse_post_data_updates (k : Spec.config_key) (body : string) (c : config) :
  cstr body = body ->
  Spec.get k (parse_post_data body c) = Spec.updated k (take 511 body) c.
Proof.
  intros Hbody. unfold parse_post_data, strncpy, Spec.updated.
  rewrite Hbody, fold_parse_field, fields_of_tokens. reflexivity.
Qed.




(** * The rendering of the settings *)

Lemma digit_is_plain (c : ascii) :
  Spec.is_digit c = true ->
  Ascii.eqb c NUL = false /\ Ascii.eqb c "." = false /\ Ascii.eqb c "-" = false.
Proof.
  destruct c as [[] [] [] [] [] [] [] []]; intros H; cbv in H;
    try discriminate H; repeat split.
Qed.

Lemma all_digits_uint (d : Decimal.uint) :
  Spec.all_digits (NilEmpty.string_of_uint d) = true.
Proof.
  induction d; simpl; auto.
Qed.

Lemma dec_digits (n : Z) :
  0 <= n -> Spec.all_digits (dec n) = true /\ nonempty (dec n) = true.
Proof.
  intros Hn. unfold dec.
  destruct n as [|p|p]; [split; reflexivity | | lia].
  cbn [Z.to_int NilZero.string_of_int]. unfold NilZero.string_of_uint.
  pose proof (all_digits_uint (Pos.to_uint p)) as H.
  destruct (Pos.to_uint p); (split; [first [reflexivity | exact H] | reflexivity]).
Qed.

Lemma all_digits_app (a b : string) :
  Spec.all_digits (a ++ b) = Spec.all_digits a && Spec.all_digits b.
Proof.
  induction a as [|c a IH]; simpl; [reflexivity|].
  rewrite IH. apply andb_assoc.
Qed.

Lemma all_digits_cstr (s : string) : Spec.all_digits s = true -> cstr s = s.
Proof.
  induction s as [|c s IH]; simpl; [reflexivity|].
  intros H. apply andb_prop in H as [Hc Hs].
  destruct (digit_is_plain c Hc) as [-> _]. rewrite IH by exact Hs. reflexivity.
Qed.

Lemma cstr_app (a b : string) : cstr a = a -> cstr b = b -> cstr (a ++ b) = a ++ b.
Proof.
  induction a as [|c a IH]; simpl; [auto|].
  destruct (Ascii.eqb c NUL); [discriminate|].
  intros [= Ha] Hb. rewrite IH; auto.
Qed.

Lemma strchr_after_digits (digits rest : string) :
  Spec.all_digits digits = true ->
  strchr (digits ++ String "." rest) "." = Some (digits, String "." rest).
Proof.
  induction digits as [|c digits IH]; simpl; [reflexivity|].
  intros H. apply andb_prop in H as [Hc Hs].
  destruct (digit_is_plain c Hc) as (_ & -> & _).
  rewrite IH by exact Hs. reflexivity.
Qed.

Lemma round_div_nonneg (a b : Z) : 0 <= a -> 0 < b -> 0 <= round_div a b.
Proof.
  intros Ha Hb. unfold round_div.
  assert (0 <= a / b) by (apply Z.div_pos; lia).
  destruct (2 * (a mod b) ?= b); [destruct (Z.even (a / b))| |]; lia.
Qed.

Lemma scaled_nonneg (prec : nat) (m : positive) (e : Z) : 0 <= scaled prec m e.
Proof.
  unfold scaled.
  assert (0 < 10 ^ Z.of_nat prec) by (apply Z.pow_pos_nonneg; lia).
  destruct (Z.leb_spec 0 e).
  - assert (0 < 2 ^ e) by (apply Z.pow_pos_nonneg; lia). nia.
  - apply round_div_nonneg; [lia|]. apply Z.pow_pos_nonneg; lia.
Qed.

(** The two digits after the point, checked for each of the hundred values. *)
Lemma fractions_checked :
  forallb (fun r => (String.length (pad 2 (dec (Z.of_nat r))) =? 2)%nat
                    && Spec.all_digits (pad 2 (dec (Z.of_nat r))))
          (seq 0 100) = true.
Proof. vm_compute. reflexivity. Qed.

Lemma fraction_two_digits (n : Z) :
  String.length (pad 2 (dec (n mod 100))) = 2%nat
  /\ Spec.all_digits (pad 2 (dec (n mod 100))) = true.
Proof.
  pose proof (Z.mod_pos_bound n 100 ltac:(lia)) as Hr.
  pose proof fractions_checked as H. rewrite forallb_forall in H.
  assert (Hin : In (Z.to_nat (n mod 100)) (seq 0 100)) by (apply in_seq; lia).
  specialize (H _ Hin). rewrite Z2Nat.id in H by lia.
  apply andb_prop in H as [H1 H2].
  apply Nat.eqb_eq in H1. auto.
Qed.

Lemma fixed_two_decimals (n : Z) :
  0 <= n ->
  Spec.two_decimals (fixed 2 n) = true
  /\ Spec.two_decimals (String "-" (fixed 2 n)) = true
  /\ cstr (fixed 2 n) = fixed 2 n.
Proof.
  intros Hn. unfold fixed. change (10 ^ Z.of_nat 2) with 100.
  destruct (dec_digits (n / 100)) as [Hd Hne]; [apply Z.div_pos; lia|].
  destruct (fraction_two_digits n) as [Hl Hf].
  set (int_part := dec (n / 100)) in *.
  set (frac := pad 2 (dec (n mod 100))) in *.
  change (int_part ++ "." ++ frac) with (int_part ++ String "." frac).
  assert (T : Spec.two_decimals (String "-" (int_part ++ String "." frac)) = true).
  { unfold Spec.two_decimals.
    rewrite strchr_after_digits by exact Hd.
    cbn [skip]. rewrite Hne, Hd, Hf, Hl. reflexivity. }
  split; [|split; [exact T|]].
  - destruct int_part as [|c r]; [discriminate|].
    cbn [Spec.all_digits] in Hd. apply andb_prop in Hd as [Hc Hr].
    revert T. unfold Spec.two_decimals.
    destruct c as [[] [] [] [] [] [] [] []]; cbv in Hc; try discriminate Hc; auto.
  - apply cstr_app; [apply all_digits_cstr; exact Hd|].
    apply (cstr_app "."); [reflexivity | apply all_digits_cstr; exact Hf].
Qed.

Lemma f2_cstr (x : float) : cstr (f2 x) = f2 x.
Proof.
  unfold f2, fmt_f.
  destruct (to_double x) as [s|s| |s m e].
  - destruct (fixed_two_decimals 0 ltac:(lia)) as (_ & _ & H).
    destruct s; [apply (cstr_app "-"); [reflexivity | exact H] | exact H].
  - destruct s; reflexivity.
  - reflexivity.
  - destruct (fixed_two_decimals _ (scaled_nonneg 2 m e)) as (_ & _ & H).
    destruct s; [apply (cstr_app "-"); [reflexivity | exact H] | exact H].
Qed.

Lemma f2_two_decimals (x : float) :
  is_finite (to_double x) = true -> Spec.two_decimals (f2 x) = true.
Proof.
  unfold f2, fmt_f.
  destruct (to_double x) as [s|s| |s m e]; try discriminate; intros _.
  - destruct (fixed_two_decimals 0 ltac:(lia)) as (H1 & H2 & _).
    destruct s; [exact H2 | exact H1].
  - destruct (fixed_two_decimals _ (scaled_nonneg 2 m e)) as (H1 & H2 & _).
    destruct s; [exact H2 | exact H1].
Qed.

Lemma take_all (n : nat) (s : string) : (String.length s <= n)%nat -> take n s = s.
Proof.
  revert s. induction n as [|n IH]; intros [|c s]; simpl; intros H;
    try reflexivity; try lia.
  rewrite IH by lia. reflexivity.
Qed.

Lemma getconfig_json_flat (c : config) :
  getconfig_json c = Spec.flat_json (Spec.settings_fields c).
Proof. reflexivity. Qed.

Lemma getconfig_json_cstr (c : config) : cstr (getconfig_json c) = getconfig_json c.
Proof.
  unfold getconfig_json.
  repeat (apply cstr_app; [first [apply f2_cstr | reflexivity] |]).
  reflexivity.
Qed.

Lemma json_headers_plain :
  forallb (fun n => String.eqb (send_chunk (json_http_header (Z.of_nat n)))
                               (json_http_header (Z.of_nat n)))
          (seq 0 512) = true.
Proof. vm_compute. reflexivity. Qed.

(** ** The size of a [double] and of its text *)

Lemma digits2_pos_bound (m : positive) : Zpos m < 2 ^ Zpos (digits2_pos m).
Proof.
  induction m as [m IH|m IH|]; cbn [digits2_pos].
  - rewrite Pos2Z.inj_succ, Z.pow_succ_r by lia. lia.
  - rewrite Pos2Z.inj_succ, Z.pow_succ_r by lia. lia.
  - reflexivity.
Qed.

Lemma shr_1_digits (mrs : shr_record) :
  Zdigits2 (shr_m (shr_1 mrs)) = Z.max 0 (Zdigits2 (shr_m mrs) - 1).
Proof.
  destruct mrs as [m r s]. destruct m as [|[p|p|]|[p|p|]]; cbn [shr_1 shr_m Zdigits2 digits2_pos];
    try reflexivity; rewrite Pos2Z.inj_succ; lia.
Qed.

Lemma iter_shr_1_digits (p : positive) (mrs : shr_record) :
  Zdigits2 (shr_m (iter_pos shr_1 p mrs)) = Z.max 0 (Zdigits2 (shr_m mrs) - Zpos p).
Proof.
  revert mrs. induction p as [p IH|p IH|]; intros mrs; cbn [iter_pos].
  - rewrite !IH, shr_1_digits. lia.
  - rewrite !IH. lia.
  - apply shr_1_digits.
Qed.

Lemma Zdigits2_nonneg (m : Z) : 0 <= Zdigits2 m.
Proof. destruct m; cbn; lia. Qed.

(** Whatever is rounded, a finite result has at most [prec] bits and an
    exponent of at most [emax - prec]. *)
Lemma binary_round_aux_bounded (prec emax : Z) (sx : bool) (mx ex : Z) (lx : location)
      (s : bool) (m : positive) (e : Z) :
  0 < prec ->
  binary_round_aux prec emax sx mx ex lx = S754_finite s m e ->
  Zpos m < 2 ^ prec /\ e <= emax - prec.
Proof.
  intros Hprec. unfold binary_round_aux.
  destruct (shr_fexp prec emax mx ex lx) as [mrs' e'].
  set (m1 := round_nearest_even (shr_m mrs') (loc_of_shr_record mrs')).
  destruct (shr_fexp prec emax m1 e' loc_Exact) as [mrs'' e''] eqn:E2.
  destruct (shr_m mrs'') as [|m''|m''] eqn:Em; try discriminate.
  destruct (e'' <=? emax - prec) eqn:Ee; [|discriminate].
  intros [= _ <- <-]. split; [|apply Z.leb_le; exact Ee].
  assert (D : Zdigits2 (shr_m mrs'') <= prec).
  { unfold shr_fexp, shr, shr_record_of_loc in E2.
    pose proof (Zdigits2_nonneg m1) as Hd.
    unfold fexp in E2.
    destruct (Z.max (Zdigits2 m1 + e' - prec) (emin prec emax) - e') as [|p|p] eqn:En;
      injection E2 as <- <-; cbn [shr_m]; try lia.
    rewrite iter_shr_1_digits. cbn [shr_m]. lia. }
  rewrite Em in D. cbn [Zdigits2] in D.
  eapply Z.lt_le_trans; [apply digits2_pos_bound|].
  apply Z.pow_le_mono_r; lia.
Qed.

Lemma to_double_bounded (x : float) (s : bool) (m : positive) (e : Z) :
  to_double x = S754_finite s m e -> Zpos m < 2 ^ 53 /\ e <= 971.
Proof.
  destruct x as [| | |sx mx ex]; try discriminate.
  cbn [to_double]. unfold binary_round.
  destruct (shl_align mx ex _) as [mz ez].
  intros H. apply binary_round_aux_bounded in H; [|lia].
  exact H.
Qed.

Lemma msd_ok_tail (d : Decimal.uint) :
  d = Decimal.Nil \/ msd_ok d = true ->
  match d with Decimal.Nil => true | _ => msd_ok d end = true.
Proof. destruct d; intros [H|H]; try discriminate H; auto. Qed.

Lemma msd_ok_tail_inv (d : Decimal.uint) :
  match d with Decimal.Nil => true | _ => msd_ok d end = true ->
  d = Decimal.Nil \/ msd_ok d = true.
Proof. destruct d; auto. Qed.

Lemma msd_ok_double (d : Decimal.uint) :
  (msd_ok d = true -> msd_ok (Decimal.Little.double d) = true)
  /\ (d = Decimal.Nil \/ msd_ok d = true ->
      msd_ok (Decimal.Little.succ_double d) = true).
Proof.
  induction d as [|d [IH1 IH2]|d [IH1 IH2]|d [IH1 IH2]|d [IH1 IH2]|d [IH1 IH2]
                  |d [IH1 IH2]|d [IH1 IH2]|d [IH1 IH2]|d [IH1 IH2]|d [IH1 IH2]];
    [split; [discriminate | reflexivity] | ..];
    (split; [intros H | intros [H|H]; [discriminate H|]]);
    cbn [msd_ok Decimal.Little.double Decimal.Little.succ_double] in *;
    try (apply msd_ok_tail_inv in H);
    try (apply IH1; exact H); try (apply IH2; exact H);
    try (apply IH2; right; exact H);
    try (apply msd_ok_tail; destruct H as [->|H]; [left; reflexivity | right; apply IH1; exact H]);
    try (apply msd_ok_tail; right; apply IH2; exact H);
    try (apply msd_ok_tail; right; apply IH1; exact H).
Qed.

Lemma msd_ok_to_little_uint (p : positive) : msd_ok (Pos.to_little_uint p) = true.
Proof.
  induction p as [p IH|p IH|]; cbn [Pos.to_little_uint].
  - apply msd_ok_double. right. exact IH.
  - apply msd_ok_double. exact IH.
  - reflexivity.
Qed.

Lemma msd_ok_value (d : Decimal.uint) :
  msd_ok d = true ->
  10 ^ Z.of_nat (Decimal.nb_digits d) <= 10 * Z.of_N (DecimalPos.Unsigned.of_lu d).
Proof.
  induction d as [|d IH|d IH|d IH|d IH|d IH|d IH|d IH|d IH|d IH|d IH];
    [discriminate | ..]; intros H;
    cbn [msd_ok Decimal.nb_digits DecimalPos.Unsigned.of_lu] in *;
    rewrite Nat2Z.inj_succ, Z.pow_succ_r by lia;
    try (specialize (IH H); lia);
    (apply msd_ok_tail_inv in H as [->|H]; [cbn; lia | specialize (IH H); lia]).
Qed.

Lemma length_string_of_uint (d : Decimal.uint) :
  String.length (NilEmpty.string_of_uint d) = Decimal.nb_digits d.
Proof. induction d; cbn; congruence. Qed.

(** A number below [10^k] is written with at most [k] digits. *)
Lemma length_dec (n : Z) (k : nat) :
  0 <= n < 10 ^ Z.of_nat k -> (1 <= k)%nat -> (String.length (dec n) <= k)%nat.
Proof.
  intros Hn Hk. unfold dec.
  destruct n as [|p|p]; [cbn; lia | | lia].
  cbn [Z.to_int NilZero.string_of_int]. unfold NilZero.string_of_uint.
  assert (L : (String.length (NilEmpty.string_of_uint (Pos.to_uint p)) <= k)%nat).
  { rewrite length_string_of_uint. unfold Pos.to_uint.
    rewrite DecimalFacts.nb_digits_rev.
    pose proof (msd_ok_value _ (msd_ok_to_little_uint p)) as H.
    pose proof (DecimalPos.Unsigned.of_to p) as E.
    unfold Pos.to_uint in E. rewrite DecimalPos.Unsigned.of_lu_rev in E.
    rewrite E in H.
    set (n := Decimal.nb_digits (Pos.to_little_uint p)) in *.
    assert (Hz : 10 ^ Z.of_nat n <= 10 * Zpos p) by exact H.
    assert (Hlt : 10 ^ Z.of_nat n < 10 ^ Z.of_nat (S k)).
    { rewrite (Nat2Z.inj_succ k), Z.pow_succ_r by lia. lia. }
    apply Z.pow_lt_mono_r_iff in Hlt; lia. }
  destruct (Pos.to_uint p); cbn in *; lia.
Qed.

Lemma round_div_upper (a b : Z) : 0 <= a -> 0 < b -> round_div a b <= a + 1.
Proof.
  intros Ha Hb. unfold round_div.
  assert (a / b <= a) by (apply Z.div_le_upper_bound; nia).
  destruct (2 * (a mod b) ?= b); [destruct (Z.even (a / b))| |]; lia.
Qed.

Lemma scaled_bounded (m : positive) (e : Z) :
  Zpos m < 2 ^ 53 -> e <= 971 -> scaled 2 m e / 100 < 10 ^ 309.
Proof.
  intros Hm He. unfold scaled. change (10 ^ Z.of_nat 2) with 100.
  destruct (Z.leb_spec 0 e) as [H0|H0].
  - rewrite Z.div_mul by lia.
    assert (P : 2 ^ e <= 2 ^ 971) by (apply Z.pow_le_mono_r; lia).
    assert (P0 : 0 < 2 ^ e) by (apply Z.pow_pos_nonneg; lia).
    apply Z.le_lt_trans with (2 ^ 53 * 2 ^ 971).
    + apply Z.mul_le_mono_nonneg; lia.
    + vm_compute. reflexivity.
  - assert (P0 : 0 < 2 ^ (- e)) by (apply Z.pow_pos_nonneg; lia).
    pose proof (round_div_upper (Zpos m * 100) (2 ^ (- e)) ltac:(lia) P0) as U.
    apply Z.div_lt_upper_bound; [lia|].
    apply Z.le_lt_trans with (Zpos m * 100 + 1); [exact U|].
    assert (2 ^ 53 * 100 + 1 < 100 * 10 ^ 309) by (vm_compute; reflexivity).
    lia.
Qed.

(** No [float] is printed by [%.2f] with more than 313 bytes. *)
Lemma f2_length (x : float) : (String.length (f2 x) <= 313)%nat.
Proof.
  unfold f2, fmt_f.
  destruct (to_double x) as [s|s| |s m e] eqn:E.
  - destruct s; cbn; lia.
  - destruct s; cbn; lia.
  - cbn; lia.
  - destruct (to_double_bounded _ _ _ _ E) as [Hm He].
    pose proof (scaled_bounded m e Hm He) as Hs.
    pose proof (scaled_nonneg 2 m e) as Hn.
    unfold fixed. change (10 ^ Z.of_nat 2) with 100.
    destruct (fraction_two_digits (scaled 2 m e)) as [Hl _].
    assert (Hd : (String.length (dec (scaled 2 m e / 100)) <= 309)%nat).
    { apply length_dec; [|lia]. split; [apply Z.div_pos; lia|].
      change (Z.of_nat 309) with 309. exact Hs. }
    rewrite !length_append, Hl. destruct s; cbn [sign String.length]; lia.
Qed.

(** ** Looking for a member in the object *)

Lemma append_assoc (a b c : string) : (a ++ b) ++ c = a ++ b ++ c.
Proof. induction a as [|x a IH]; cbn [append]; [reflexivity | now rewrite IH]. Qed.

Lemma take_app_short (n : nat) (a b : string) :
  (String.length a <= n)%nat -> take n (a ++ b) = a ++ take (n - String.length a) b.
Proof.
  revert n. induction a as [|c a IH]; intros n H; cbn [append String.length] in *.
  - rewrite Nat.sub_0_r. reflexivity.
  - destruct n as [|n]; [lia|]. cbn [take Nat.sub]. rewrite IH by lia. reflexivity.
Qed.

Lemma cstr_take (n : nat) (s : string) : cstr s = s -> cstr (take n s) = take n s.
Proof.
  revert s. induction n as [|n IH]; intros [|c s] H; cbn [take cstr] in *;
    try reflexivity.
  destruct (Ascii.eqb c NUL); [discriminate|].
  injection H as H. rewrite IH by exact H. reflexivity.
Qed.

Lemma strstr_miss (c : ascii) (t needle : string) :
  prefix needle (String c t) = false ->
  strstr (String c t) needle = strstr t needle.
Proof. intros H. destruct t; cbn [strstr]; rewrite H; reflexivity. Qed.

Lemma strstr_hit (hay needle : string) :
  prefix needle hay = true -> strstr hay needle = Some hay.
Proof. intros H. destruct hay; cbn [strstr]; rewrite H; reflexivity. Qed.

Lemma strstr_over_char (c d : ascii) (n rest : string) :
  c <> d -> strstr (String c rest) (String d n) = strstr rest (String d n).
Proof.
  intros H. apply strstr_miss. cbn [prefix].
  destruct (ascii_dec d c); [congruence | reflexivity].
Qed.

Lemma strstr_over_digits (d : ascii) (n s rest : string) :
  Spec.is_digit d = false -> Spec.all_digits s = true ->
  strstr (s ++ rest) (String d n) = strstr rest (String d n).
Proof.
  intros Hd. induction s as [|c s IH]; intros H; [reflexivity|].
  cbn [Spec.all_digits] in H. apply andb_prop in H as [Hc Hs].
  cbn [append]. rewrite strstr_over_char by congruence. apply IH. exact Hs.
Qed.

Lemma strstr_over_fixed (d : ascii) (n rest : string) (v : Z) :
  Spec.is_digit d = false -> d <> "."%char -> 0 <= v ->
  strstr (fixed 2 v ++ rest) (String d n) = strstr rest (String d n).
Proof.
  intros Hd Hp Hv. unfold fixed. change (10 ^ Z.of_nat 2) with 100.
  destruct (dec_digits (v / 100)) as [H1 _]; [apply Z.div_pos; lia|].
  destruct (fraction_two_digits v) as [_ H2].
  rewrite !append_assoc, strstr_over_digits by assumption.
  cbn [append]. rewrite strstr_over_char by congruence.
  apply strstr_over_digits; assumption.
Qed.

(** The text of a [float] holds none of the characters that delimit the
    members of the object. *)
Lemma strstr_over_f2 (x : float) (d : ascii) (n rest : string) :
  Spec.is_digit d = false ->
  ~ In d ["-"; "."; "i"; "n"; "f"; "a"]%char ->
  strstr (f2 x ++ rest) (String d n) = strstr rest (String d n).
Proof.
  intros Hd Hnot.
  assert (Hc : forall c, In c ["-"; "."; "i"; "n"; "f"; "a"]%char -> c <> d)
    by (intros c Hin ->; exact (Hnot Hin)).
  assert (Hsign : forall s t, strstr (sign s ++ t) (String d n) = strstr t (String d n)).
  { intros [|] t; cbn [sign append]; [|reflexivity].
    apply strstr_over_char, Hc. cbn; tauto. }
  unfold f2, fmt_f.
  destruct (to_double x) as [s|s| |s m e].
  - rewrite append_assoc, Hsign. apply strstr_over_fixed; [assumption | | lia].
    apply not_eq_sym, Hc. cbn; tauto.
  - rewrite append_assoc, Hsign. cbn [append].
    rewrite !strstr_over_char by (apply Hc; cbn; tauto). reflexivity.
  - cbn [append].
    rewrite !strstr_over_char by (apply Hc; cbn; tauto). reflexivity.
  - rewrite append_assoc, Hsign. apply strstr_over_fixed; [assumption | | apply scaled_nonneg].
    apply not_eq_sym, Hc. cbn; tauto.
Qed.

(** The member [temp_min] lies in the first 511 bytes of the object,
    whatever the settings are. *)
Lemma temp_min_member (c : config) :
  f2 (g_temp_min c) = "5.00" ->
  Spec.json_field "temp_min" (take 511 (getconfig_json c)) = Some "5.00".
Proof.
  intros E.
  set (F := f2 (g_temp_offset c)).
  set (R := f2 (g_temp_max c) ++
            "," ++ q "umid_offset" ++ ":" ++ f2 (g_umid_offset c) ++
            "," ++ q "umid_min" ++ ":" ++ f2 (g_umid_min c) ++
            "," ++ q "umid_max" ++ ":" ++ f2 (g_umid_max c) ++
            "," ++ q "press_offset" ++ ":" ++ f2 (g_press_offset c) ++
            "," ++ q "press_min" ++ ":" ++ f2 (g_press_min c) ++
            "," ++ q "press_max" ++ ":" ++ f2 (g_press_max c) ++
            "," ++ q "alt_offset" ++ ":" ++ f2 (g_alt_offset c) ++
            "," ++ q "alt_min" ++ ":" ++ f2 (g_alt_min c) ++
            "," ++ q "alt_max" ++ ":" ++ f2 (g_alt_max c) ++ "}").
  set (A := "{" ++ q "temp_offset" ++ ":").
  set (B := "," ++ q "temp_min" ++ ":5.00," ++ q "temp_max" ++ ":").
  assert (Ej : getconfig_json c = (A ++ F ++ B) ++ R).
  { unfold getconfig_json. rewrite E. subst A B F R.
    rewrite !append_assoc. reflexivity. }
  pose proof (f2_length (g_temp_offset c)) as HF. fold F in HF.
  assert (LA : String.length A = 15%nat) by reflexivity.
  assert (LB : String.length B = 28%nat) by reflexivity.
  rewrite Ej, take_app_short by (rewrite !length_append; lia).
  set (T := take _ R). clearbody T.
  unfold Spec.json_field.
  assert (En : q "temp_min" ++ ":"
               = String (ascii_of_nat 34) ("temp_min" ++ DQ ++ ":")) by reflexivity.
  rewrite En, !append_assoc. subst A B. cbn [append q DQ].
  rewrite !strstr_miss by reflexivity.
  unfold F. rewrite strstr_over_f2; [| reflexivity | cbv; intuition discriminate].
  rewrite strstr_miss by reflexivity.
  rewrite strstr_hit by reflexivity.
  reflexivity.
Qed.

Lemma append_nil_r (s : string) : s ++ "" = s.
Proof. induction s as [|c s IH]; cbn [append]; [reflexivity | now rewrite IH]. Qed.

Lemma strchr_hit (c : ascii) (t : string) : strchr (String c t) c = Some ("", String c t).
Proof. cbn [strchr]. rewrite Ascii.eqb_refl. reflexivity. Qed.

Lemma strchr_over (s rest : string) (d : ascii) :
  strchr s d = None ->
  strchr (s ++ rest) d
  = match strchr rest d with
    | Some (before, from) => Some (s ++ before, from)
    | None => None
    end.
Proof.
  induction s as [|c s IH]; cbn [strchr append]; intros H.
  - destruct (strchr rest d) as [[b f]|]; reflexivity.
  - destruct (Ascii.eqb c d); [discriminate|].
    destruct (strchr s d) as [[b f]|]; [discriminate|].
    rewrite IH by reflexivity.
    destruct (strchr rest d) as [[b f]|]; reflexivity.
Qed.

Lemma strchr_digits (s : string) (d : ascii) :
  Spec.is_digit d = false -> Spec.all_digits s = true -> strchr s d = None.
Proof.
  intros Hd. induction s as [|c s IH]; intros H; [reflexivity|].
  cbn [Spec.all_digits] in H. apply andb_prop in H as [Hc Hs].
  cbn [strchr]. rewrite IH by exact Hs.
  destruct (Ascii.eqb_spec c d); [congruence | reflexivity].
Qed.

Lemma strchr_app_none (a b : string) (d : ascii) :
  strchr a d = None -> strchr b d = None -> strchr (a ++ b) d = None.
Proof. intros Ha Hb. rewrite strchr_over, Hb by exact Ha. reflexivity. Qed.

Lemma strchr_f2 (x : float) (d : ascii) :
  Spec.is_digit d = false ->
  ~ In d ["-"; "."; "i"; "n"; "f"; "a"]%char ->
  strchr (f2 x) d = None.
Proof.
  intros Hd Hnot.
  assert (Hc : forall c t, In c ["-"; "."; "i"; "n"; "f"; "a"]%char ->
                           strchr t d = None -> strchr (String c t) d = None).
  { intros c t Hin Ht. cbn [strchr]. rewrite Ht.
    destruct (Ascii.eqb_spec c d); [subst; contradiction | reflexivity]. }
  assert (Hsign : forall s t, strchr t d = None -> strchr (sign s ++ t) d = None).
  { intros [|] t Ht; cbn [sign append]; [|exact Ht]. apply Hc; [cbn; tauto | exact Ht]. }
  assert (Hfixed : forall v, 0 <= v -> strchr (fixed 2 v) d = None).
  { intros v Hv. unfold fixed. change (10 ^ Z.of_nat 2) with 100.
    destruct (dec_digits (v / 100)) as [H1 _]; [apply Z.div_pos; lia|].
    destruct (fraction_two_digits v) as [_ H2].
    apply strchr_app_none; [apply strchr_digits; assumption|].
    cbn [append]. apply Hc; [cbn; tauto|]. apply strchr_digits; assumption. }
  unfold f2, fmt_f.
  destruct (to_double x) as [s|s| |s m e].
  - apply Hsign, Hfixed. lia.
  - apply Hsign. repeat (apply Hc; [cbn; tauto|]). reflexivity.
  - repeat (apply Hc; [cbn; tauto|]). reflexivity.
  - apply Hsign, Hfixed, scaled_nonneg.
Qed.

Lemma prefix_nil (s : string) : prefix "" s = true.
Proof. destruct s; reflexivity. Qed.

Lemma prefix_same (a : ascii) (n h : string) :
  prefix n h = true -> prefix (String a n) (String a h) = true.
Proof.
  intros H. cbn [prefix]. destruct (ascii_dec a a); [exact H | congruence].
Qed.

(** Every member of the whole object is the [%.2f] text of its setting. *)
Lemma getconfig_json_members (c : config) (k : Spec.config_key) :
  Spec.json_field (Spec.key_name k) (getconfig_json c) = Some (f2 (Spec.get k c)).
Proof.
  assert (Hcomma : forall x, strchr (f2 x) "," = None)
    by (intros x; apply strchr_f2; [reflexivity | cbv; intuition discriminate]).
  assert (Hbrace : forall x, strchr (f2 x) "}" = None)
    by (intros x; apply strchr_f2; [reflexivity | cbv; intuition discriminate]).
  unfold Spec.json_field, getconfig_json.
  destruct k; cbn [Spec.key_name Spec.get];
    match goal with
    | |- context [strstr _ (q ?name ++ ":")] =>
        change (q name ++ ":") with (String (ascii_of_nat 34) (name ++ DQ ++ ":"))
    end;
    cbn [append q DQ];
    repeat first [ rewrite strstr_miss by reflexivity
                 | rewrite strstr_over_f2 by (first [reflexivity | cbv; intuition discriminate]) ];
    rewrite strstr_hit by (repeat apply prefix_same; apply prefix_nil);
    cbv zeta; cbn [String.length Nat.add skip];
    rewrite !(strchr_over (f2 _)) by (first [apply Hcomma | apply Hbrace]);
    rewrite ?strchr_hit; cbn [strchr Ascii.eqb Bool.eqb];
    rewrite append_nil_r; reflexivity.
Qed.

(** The reply of [/getconfig], cut or not. *)
Lemma getconfig_reply_cut (c : config) :
  send_json_response (snprintf 512 (getconfig_json c))
  = [ json_http_header (Z.of_nat (String.length (take 511 (getconfig_json c))));
      take 511 (getconfig_json c) ].
Proof.
  unfold send_json_response, snprintf.
  change (512 - 1)%nat with 511%nat.
  pose proof (cstr_take 511 _ (getconfig_json_cstr c)) as Ec.
  unfold strlen, send_chunk at 2. rewrite Ec.
  f_equal.
  pose proof json_headers_plain as H. rewrite forallb_forall in H.
  apply String.eqb_eq. apply H. apply in_seq.
  pose proof (length_take 511 (getconfig_json c)). lia.
Qed.

(** [%.2f] gives fixed notation with two decimals exactly for the finite
    values. *)
Lemma f2_two_decimals_iff (x : float) :
  Spec.two_decimals (f2 x) = is_finite (to_double x).
Proof.
  destruct (is_finite (to_double x)) eqn:E; [apply f2_two_decimals; exact E|].
  unfold f2, fmt_f. destruct (to_double x) as [s|s| |s m e]; try discriminate E.
  - destruct s; reflexivity.
  - reflexivity.
Qed.


(** C9, as stated, fails in two ways.  A setting can be made infinite
    through the form ([1e39] has no [float]), and [%.2f] prints an infinite
    value as [inf], which is not a number with two decimals.  And the object
    is cut to the 511 bytes of the payload buffer: with the twelve settings
    at [1e38] its text has 649 bytes, and the members from [alt_offset] on
    are cut or missing. *)
Lemma getconfig_field_not_two_decimals :
  let get := "GET /getconfig HTTP/1.1" ++ CRLF ++ CRLF in
  let post := "POST /config HTTP/1.1" ++ CRLF ++ CRLF ++ "temp_min=1e39" in
  let g1 := fst (tcp_server_recv globals_init "" (Some post)) in
  let reply := snd (tcp_server_recv g1 "" (Some get)) in
  let post' := "POST /config HTTP/1.1" ++ CRLF ++ CRLF ++
               "temp_offset=1e38&temp_min=1e38&temp_max=1e38&" ++
               "umid_offset=1e38&umid_min=1e38&umid_max=1e38&" ++
               "press_offset=1e38&press_min=1e38&press_max=1e38&" ++
               "alt_offset=1e38&alt_min=1e38&alt_max=1e38" in
  let g2 := fst (tcp_server_recv globals_init "" (Some post')) in
  let reply' := snd (tcp_server_recv g2 "" (Some get)) in
  (g_temp_min (cfg g1) = S754_infinity false
   /\ Spec.json_field "temp_min" (wire (tl reply)) = Some "inf"
   /\ Spec.two_decimals "inf" = false)
  /\ (g_alt_max (cfg g2) = to_float (atof "1e38")
      /\ is_finite (to_double (g_alt_max (cfg g2))) = true
      /\ String.length (getconfig_json (cfg g2)) = 649%nat
      /\ String.length (wire (tl reply')) = 511%nat
      /\ Spec.json_field "alt_max" (wire (tl reply')) = None).
Proof.
  repeat split; vm_compute; reflexivity.
Qed.

(** C9, amended.  After a POST to [/config] in whose form data the last
    field named [temp_min] has a value text that converts to 5.0, a request
    that reaches the [/getconfig] handler changes nothing and is answered
    with the first 511 bytes of the flat JSON object of the twelve settings
    in their fixed order, each value printed with [%.2f], behind a header
    with the length of what is sent.  The member [temp_min] of what is sent
    is [5.00], whatever the other settings are and whether or not the object
    is cut.  When the object fits the 511 bytes it is sent whole, and every
    member is the [%.2f] text of its setting.  That text is in fixed
    notation with exactly two decimals if and only if the setting is
    finite. *)
Theorem getconfig_reflects_settings
        (g : globals) (stale post stale' get body text : string) :
  found (strstr (request_buffer stale post) "GET /navigate ") = false ->
  found (strstr (request_buffer stale post) "POST /config ") = true ->
  strstr (request_buffer stale post) (CRLF ++ CRLF) = Some (CRLF ++ CRLF ++ body) ->
  Spec.value_of "temp_min" (Spec.fields (take 511 body)) = Some text ->
  to_float (atof text) = f32_lit 5 ->
  found (strstr (request_buffer stale' get) "GET /navigate ") = false ->
  found (strstr (request_buffer stale' get) "POST /config ") = false ->
  found (strstr (request_buffer stale' get) "GET /getconfig ") = true ->
  let g1 := fst (tcp_server_recv g stale (Some post)) in
  let json := Spec.flat_json (Spec.settings_fields (cfg g1)) in
  let sent := take 511 json in
  tcp_server_recv g1 stale' (Some get)
  = (g1, [json_http_header (Z.of_nat (String.length sent)); sent])
  /\ Spec.json_field "temp_min" sent = Some "5.00"
  /\ ((String.length json <= 511)%nat ->
      sent = json
      /\ forall k, Spec.json_field (Spec.key_name k) sent
                   = Some (f2 (Spec.get k (cfg g1))))
  /\ (forall k, Spec.two_decimals (f2 (Spec.get k (cfg g1)))
                = is_finite (to_double (Spec.get k (cfg g1)))).
Proof.
  intros Hnav Hpost Hbody Hvalue Htext Gnav Gpost Gget g1 json sent.
  assert (E1 : cfg g1 = parse_post_data body (cfg g)).
  { subst g1. unfold tcp_server_recv. rewrite Hnav, Hpost, Hbody. reflexivity. }
  assert (E5 : g_temp_min (cfg g1) = f32_lit 5).
  { rewrite E1.
    pose proof (parse_post_data_updates Spec.temp_min body (cfg g)
                  (request_body_is_cstr _ _ _ Hbody)) as H.
    unfold Spec.updated in H. cbn [Spec.key_name] in H.
    rewrite Hvalue, Htext in H. exact H. }
  subst sent json. rewrite <- getconfig_json_flat.
  split.
  { unfold tcp_server_recv at 1. rewrite Gnav, Gpost, Gget.
    rewrite getconfig_reply_cut. reflexivity. }
  split.
  { apply temp_min_member. rewrite E5. vm_compute. reflexivity. }
  split; [|intros k; apply f2_two_decimals_iff].
  intros Hfit. rewrite take_all by exact Hfit.
  split; [reflexivity|]. intros k. apply getconfig_json_members.
Qed.

Lemma getconfig_reflects_settings_witness :
  let fill := "POST /config HTTP/1.1" ++ CRLF ++ CRLF ++
              "temp_offset=-3.4e38&temp_min=-3.4e38&temp_max=-3.4e38&" ++
              "umid_offset=-3.4e38&umid_min=-3.4e38&umid_max=-3.4e38&" ++
              "press_offset=-3.4e38&press_min=-3.4e38&press_max=-3.4e38&" ++
              "alt_offset=-3.4e38&alt_min=-3.4e38&alt_max=-3.4e38" in
  let post := "POST /config HTTP/1.1" ++ CRLF ++ "Host: pico" ++ CRLF ++ CRLF ++
              "temp_max=40&temp_min=5.0" in
  let get := "GET /getconfig HTTP/1.1" ++ CRLF ++ "Host: pico" ++ CRLF ++ CRLF in
  let g := fst (tcp_server_recv globals_init "" (Some fill)) in
  let g1 := fst (tcp_server_recv g "" (Some post)) in
  let reply := snd (tcp_server_recv g1 "" (Some get)) in
  (String.length (getconfig_json (cfg g1)) > 511)%nat
  /\ String.length (wire (tl reply)) = 511%nat
  /\ Spec.json_field "temp_min" (wire (tl reply)) = Some "5.00".
Proof.
  intros fill post get g g1 reply.
  destruct (getconfig_reflects_settings g "" post "" get "temp_max=40&temp_min=5.0" "5.0"
              eq_refl eq_refl eq_refl eq_refl eq_refl eq_refl eq_refl eq_refl)
    as (H & Hmin & _).
  fold g1 in H, Hmin.
  assert (Ew : wire (tl reply)
               = take 511 (Spec.flat_json (Spec.settings_fields (cfg g1)))).
  { subst reply. rewrite H. cbn [snd tl wire fold_right]. apply append_nil_r. }
  rewrite Ew.
  split; [vm_compute; lia|].
  split; [vm_compute; reflexivity | exact Hmin].
Defined.

(** * Further properties of the HTTP callback *)

Lemma holds_from_spec (f : Z -> bool) (n : nat) (k i : Z) :
  holds_from f n k = true -> k <= i < k + Z.of_nat n -> f i = true.
Proof.
  revert k. induction n as [|n IH]; intros k H Hi; [lia|].
  cbn [holds_from] in H. apply andb_prop in H as [Hk Hrest].
  destruct (Z.eq_dec i k) as [->|Hne]; [exact Hk|].
  apply (IH (k + 1)); [exact Hrest | lia].
Qed.

Lemma prefix_split (a s : string) :
  prefix a s = true -> exists rest, s = a ++ rest.
Proof.
  revert s. induction a as [|c a IH]; intros s H.
  - exists s. reflexivity.
  - destruct s as [|d s]; [discriminate|].
    cbn [prefix] in H. destruct (Ascii.ascii_dec c d) as [<-|]; [|discriminate].
    destruct (IH _ H) as [rest ->]. exists rest. reflexivity.
Qed.

Lemma take_app_long (n : nat) (a b : string) :
  (n <= String.length a)%nat -> take n (a ++ b) = take n a.
Proof.
  revert a. induction n as [|n IH]; intros [|c a] H; simpl in *;
    try reflexivity; try lia.
  rewrite IH by lia. reflexivity.
Qed.

(** The status line of every header, checked for each length. *)
Lemma json_headers_status :
  holds_from (fun n => prefix ("HTTP/1.1 200 OK" ++ CRLF) (send_chunk (json_http_header n)))
             512 0 = true.
Proof. vm_compute. reflexivity. Qed.

Lemma html_headers_status :
  holds_from (fun n => prefix ("HTTP/1.1 200 OK" ++ CRLF) (send_chunk (html_http_header n)))
             (Z.to_nat 6022) 0 = true.
Proof. vm_compute. reflexivity. Qed.

Lemma json_response_status (payload : string) :
  (String.length (cstr payload) <= 511)%nat ->
  exists rest body,
    send_json_response payload = ("HTTP/1.1 200 OK" ++ CRLF ++ rest) :: body.
Proof.
  intros Hlen. unfold send_json_response.
  destruct (prefix_split ("HTTP/1.1 200 OK" ++ CRLF)
                         (send_chunk (json_http_header (strlen payload)))) as [rest E].
  - apply (holds_from_spec _ _ _ _ json_headers_status). unfold strlen. lia.
  - exists rest. eexists. rewrite E. reflexivity.
Qed.

Lemma html_response_status (template : string) :
  exists rest body,
    send_full_response template = ("HTTP/1.1 200 OK" ++ CRLF ++ rest) :: body.
Proof.
  pose proof (length_final_content template) as Hlen.
  unfold send_full_response.
  set (content := final_content template) in *.
  assert (EH : strlen HTML_HEADER = 943) by (vm_compute; reflexivity).
  assert (EN : strlen HTML_NAV = 869) by (vm_compute; reflexivity).
  assert (EF : strlen HTML_FOOTER = 114) by (vm_compute; reflexivity).
  rewrite EH, EN, EF.
  destruct (prefix_split ("HTTP/1.1 200 OK" ++ CRLF)
              (send_chunk (html_http_header (943 + 869 + strlen content + 114))))
    as [rest E].
  - apply (holds_from_spec _ _ _ _ html_headers_status). unfold strlen. lia.
  - exists rest. eexists. rewrite E. reflexivity.
Qed.

(** X1.  Whatever is received, the callback leaves the four readings, the
    page index and the press time as they are; the pending target stays or
    is cleared, never replaced; and the settings can change only when
    [POST /config ] occurs in the request buffer and [GET /navigate ] does
    not. *)
Theorem receive_changes_little (g : globals) (stale : string) (p : option string) :
  let g' := fst (tcp_server_recv g stale p) in
  rd g' = rd g
  /\ g_current_page_index (nav g') = g_current_page_index (nav g)
  /\ g_last_press_time (nav g') = g_last_press_time (nav g)
  /\ (g_target_page (nav g') = g_target_page (nav g) \/ g_target_page (nav g') = None)
  /\ (cfg g' = cfg g
      \/ exists payload,
           p = Some payload
           /\ found (strstr (request_buffer stale payload) "POST /config ") = true
           /\ found (strstr (request_buffer stale payload) "GET /navigate ") = false).
Proof.
  destruct p as [payload|]; cbn [tcp_server_recv].
  2:{ cbn. repeat split; auto. }
  cbv zeta.
  destruct (found (strstr (request_buffer stale payload) "GET /navigate ")) eqn:Hn.
  { destruct (g_target_page (nav g)) eqn:Et; cbn; repeat split; auto. }
  destruct (found (strstr (request_buffer stale payload) "POST /config ")) eqn:Hp.
  { destruct (strstr (request_buffer stale payload) (CRLF ++ CRLF));
      cbn [fst with_cfg rd nav cfg]; repeat split; auto.
    right. exists payload. auto. }
  destruct (found (strstr (request_buffer stale payload) "GET /getconfig "));
    [cbn; repeat split; auto|].
  destruct (found (strstr (request_buffer stale payload) "GET /estado "));
    cbn; repeat split; auto.
Qed.

(** X2.  Every reply starts with the status line [HTTP/1.1 200 OK]: no
    request, however malformed, gets an error status. *)
Theorem every_reply_has_status_200 (g : globals) (stale payload : string) :
  exists rest body,
    snd (tcp_server_recv g stale (Some payload))
    = ("HTTP/1.1 200 OK" ++ CRLF ++ rest) :: body.
Proof.
  rewrite dispatch_by_first_occurrence.
  destruct (Spec.first_occurring (request_buffer stale payload)) as [[]|];
    cbn [Spec.handle snd].
  - apply json_response_status.
    etransitivity; [apply length_cstr|]. etransitivity; [apply length_take|]. simpl; lia.
  - exists ("Content-Length: 0" ++ CRLF ++ CRLF), []. reflexivity.
  - apply json_response_status.
    etransitivity; [apply length_cstr|]. etransitivity; [apply length_take|]. simpl; lia.
  - apply json_response_status.
    etransitivity; [apply length_cstr|]. etransitivity; [apply length_take|]. simpl; lia.
  - apply html_response_status.
  - apply html_response_status.
  - apply html_response_status.
Qed.

(** X3.  Only the first 1023 bytes of a request count: when the payload has
    at least 1023 bytes, whatever follows them, and whatever the stack held
    before, makes no difference to the result. *)
Theorem long_request_is_cut (g : globals) (stale stale' payload extra : string) :
  (1023 <= String.length payload)%nat ->
  tcp_server_recv g stale (Some (payload ++ extra))
  = tcp_server_recv g stale' (Some payload).
Proof.
  intros Hlen.
  assert (E : request_buffer stale (payload ++ extra) = request_buffer stale' payload).
  { unfold request_buffer.
    rewrite (take_app_long 1023 (payload ++ extra)), (take_app_long 1023 payload extra),
            (take_app_long 1023 payload); try exact Hlen; [reflexivity|].
    rewrite length_append. lia. }
  unfold tcp_server_recv. rewrite E. reflexivity.
Qed.

Lemma long_request_is_cut_witness :
  let payload := "GET /estado HTTP/1.1" ++ CRLF ++ "X-Fill: " ++ zeros 1000 in
  tcp_server_recv globals_init "" (Some (payload ++ CRLF ++ "X: GET /navigate " ++ CRLF))
  = tcp_server_recv globals_init "GET /navigate " (Some payload).
Proof.
  intros payload.
  apply (long_request_is_cut globals_init "" "GET /navigate " payload).
  apply Nat.leb_le. vm_compute. reflexivity.
Defined.

(** * Further properties of the navigation *)

Lemma edge_keeps_consistency (s s' : nav_state) (gpio now : Z) :
  nav_consistent s -> gpio_callback s gpio now = Done s' -> nav_consistent s'.
Proof.
  intros [Hi Ht] H.
  destruct (Z.ltb_spec (uint32 (now - g_last_press_time s)) DEBOUNCE_MS) as [Hd|Hd].
  - rewrite gpio_callback_debounced in H by exact Hd.
    injection H as <-. split; assumption.
  - assert (Hr : 0 <= g_current_page_index s < G_NUM_PAGES)
      by (replace G_NUM_PAGES with 24 by reflexivity; lia).
    destruct (gpio_callback_index_range s s' gpio now Hr) as [Hdone _].
    destruct (gpio_callback_overwrites_slot s s' gpio now Hd H) as (Hslot & _ & _).
    split; [apply Hdone; assumption | right; exact Hslot].
Qed.

Lemma receive_keeps_consistency (g : globals) (stale : string) (p : option string) :
  nav_consistent (nav g) -> nav_consistent (nav (fst (tcp_server_recv g stale p))).
Proof.
  intros [Hi Ht].
  destruct p as [payload|]; [|split; assumption].
  rewrite dispatch_by_first_occurrence.
  destruct (Spec.first_occurring (request_buffer stale payload)) as [h|].
  - destruct (handle_frame (Some h) g (request_buffer stale payload)) as (_ & _ & Hn).
    destruct h; try (rewrite Hn by discriminate; split; assumption).
    cbn [Spec.handle fst with_nav nav]. split; [exact Hi | left; reflexivity].
  - split; assumption.
Qed.

Lemma iteration_keeps_nav (pow : double -> double -> double) (now last : Z)
      (smp : sample) (g : globals) :
  nav (snd (fst (loop_iteration pow now smp last g))) = nav g.
Proof.
  unfold loop_iteration.
  destruct (2000 <=? uint32 (now - last)); reflexivity.
Qed.

Lemma step_keeps_consistency (pow : double -> double -> double) (st st' : system)
      (ev : event) :
  nav_consistent (nav (vars st)) -> step pow st ev = Some st' ->
  nav_consistent (nav (vars st')).
Proof.
  intros Hc. destruct ev as [gpio now|stale p|now smp]; cbn [step].
  - destruct (gpio_callback (nav (vars st)) gpio now) as [s|s] eqn:E; [|discriminate].
    intros [= <-]. cbn [vars with_nav nav].
    eapply edge_keeps_consistency; eauto.
  - intros [= <-]. cbn [vars]. apply receive_keeps_consistency. exact Hc.
  - pose proof (iteration_keeps_nav pow now (last_sensor_read_ms st) smp (vars st)) as Hn.
    destruct (loop_iteration pow now smp (last_sensor_read_ms st) (vars st))
      as [[last g] drawn].
    intros [= <-]. cbn [vars]. cbn [fst snd] in Hn. rewrite Hn. exact Hc.
Qed.

(** X4.  However button edges, receive callbacks and loop iterations follow
    one another from the initial state, as long as no button edge reads past
    the end of [G_PAGES], the page index is one of 0..5 and the pending
    target is either absent or the page at the current index. *)
Theorem reachable_navigation_is_consistent
        (pow : double -> double -> double) (events : list event) (st : system) :
  run pow system_init events = Some st ->
  nav_consistent (nav (vars st)).
Proof.
  assert (Hinit : nav_consistent (nav (vars system_init)))
    by (split; [cbn; lia | left; reflexivity]).
  revert Hinit. generalize system_init as st0.
  induction events as [|ev events IH]; intros st0 Hc; cbn [run].
  - intros [= <-]. exact Hc.
  - destruct (step pow st0 ev) as [st1|] eqn:E; [|discriminate].
    apply IH. eapply step_keeps_consistency; eauto.
Qed.

Lemma reachable_navigation_is_consistent_witness :
  let pow := fun (x _ : double) => x in
  let events :=
    [ Edge BUTTON_B 600;
      Iterate 2000 {| data_aht := {| temperature := f32_lit 25; humidity := f32_lit 70 |};
                      pressure_pa := f32_lit 101325 |};
      Edge BUTTON_B 700;
      Receive "" (Some ("GET /navigate HTTP/1.1" ++ CRLF ++ CRLF));
      Edge BUTTON_B 1300;
      Edge BUTTON_A 1900 ] in
  exists st, run pow system_init events = Some st
             /\ g_current_page_index (nav (vars st)) = 1
             /\ g_target_page (nav (vars st)) = Some "/config"
             /\ nav_consistent (nav (vars st)).
Proof.
  intros pow events. eexists.
  split; [vm_compute; reflexivity|].
  split; [reflexivity|]. split; [reflexivity|].
  apply (reachable_navigation_is_consistent pow events).
  vm_compute. reflexivity.
Defined.

Lemma on_button_edge_accepted (s : nav_state) (gpio now : Z) :
  DEBOUNCE_MS <= uint32 (now - g_last_press_time s) ->
  let s' := Spec.on_button_edge s gpio now in
  g_last_press_time s' = now
  /\ g_current_page_index s'
     = (if gpio =? BUTTON_A then (g_current_page_index s - 1 + 6) mod 6
        else if gpio =? BUTTON_B then (g_current_page_index s + 1) mod 6
        else g_current_page_index s)
  /\ g_target_page s' = nth_error G_PAGES (Z.to_nat (g_current_page_index s')).
Proof.
  intros H. unfold Spec.on_button_edge, Spec.page_count.
  destruct (Z.ltb_spec (uint32 (now - g_last_press_time s)) DEBOUNCE_MS); [lia|].
  repeat split.
Qed.

Lemma two_edges_inside_list (s : nav_state) (b1 b2 t1 t2 i1 : Z) (page : string) :
  DEBOUNCE_MS <= uint32 (t1 - g_last_press_time s) ->
  DEBOUNCE_MS <= uint32 (t2 - t1) ->
  0 <= g_current_page_index s < 6 ->
  nth_error G_PAGES (Z.to_nat (g_current_page_index s)) = Some page ->
  (b1 = BUTTON_A /\ b2 = BUTTON_B /\ 1 <= g_current_page_index s
                /\ i1 = g_current_page_index s - 1)
  \/ (b1 = BUTTON_B /\ b2 = BUTTON_A /\ g_current_page_index s <= 4
                   /\ i1 = g_current_page_index s + 1) ->
  run_edges s [(b1, t1); (b2, t2)]
  = Done {| g_current_page_index := g_current_page_index s;
            g_target_page := Some page; g_last_press_time := t2 |}.
Proof.
  intros H1 H2 Hi Hpage Hb.
  set (s1 := Spec.on_button_edge s b1 t1).
  destruct (on_button_edge_accepted s b1 t1 H1) as (L1 & I1 & _). fold s1 in L1, I1.
  assert (E1 : gpio_callback s b1 t1 = Done s1).
  { apply gpio_callback_inside_list; try assumption;
      destruct Hb as [(-> & _ & ? & _)|(-> & _ & ? & _)]; intros; try lia; discriminate. }
  assert (J1 : g_current_page_index s1 = i1).
  { rewrite I1. destruct Hb as [(-> & _ & ? & ->)|(-> & _ & ? & ->)].
    - change (BUTTON_A =? BUTTON_A) with true. cbv iota.
      replace (g_current_page_index s - 1 + 6) with (g_current_page_index s - 1 + 1 * 6)
        by ring.
      rewrite Z.mod_add by lia. apply Z.mod_small. lia.
    - change (BUTTON_B =? BUTTON_A) with false.
      change (BUTTON_B =? BUTTON_B) with true. cbv iota.
      apply Z.mod_small. lia. }
  assert (H2' : DEBOUNCE_MS <= uint32 (t2 - g_last_press_time s1)) by (rewrite L1; exact H2).
  set (s2 := Spec.on_button_edge s1 b2 t2).
  destruct (on_button_edge_accepted s1 b2 t2 H2') as (L2 & I2 & T2). fold s2 in L2, I2, T2.
  assert (E2 : gpio_callback s1 b2 t2 = Done s2).
  { apply gpio_callback_inside_list; try assumption; rewrite J1;
      destruct Hb as [(_ & -> & ? & ->)|(_ & -> & ? & ->)]; intros; try lia; discriminate. }
  assert (J2 : g_current_page_index s2 = g_current_page_index s).
  { rewrite I2, J1. destruct Hb as [(_ & -> & ? & ->)|(_ & -> & ? & ->)].
    - change (BUTTON_B =? BUTTON_A) with false.
      change (BUTTON_B =? BUTTON_B) with true. cbv iota.
      replace (g_current_page_index s - 1 + 1) with (g_current_page_index s) by ring.
      apply Z.mod_small. lia.
    - change (BUTTON_A =? BUTTON_A) with true. cbv iota.
      replace (g_current_page_index s + 1 - 1 + 6) with (g_current_page_index s + 1 * 6)
        by ring.
      rewrite Z.mod_add by lia. apply Z.mod_small. lia. }
  cbn [run_edges]. rewrite E1, E2. f_equal.
  rewrite J2, Hpage in T2.
  clearbody s2. destruct s2 as [a b c]. cbn in L2, J2, T2.
  rewrite L2, J2, T2. reflexivity.
Qed.

(** X5.  Away from the ends of the page list the two buttons undo each
    other: from an index in 1..5 an accepted A edge followed by an accepted
    B edge, and from an index in 0..4 an accepted B edge followed by an
    accepted A edge, lead back to the same index, with the page at that
    index pending. *)
Theorem buttons_undo_each_other (s : nav_state) (t1 t2 : Z) (page : string) :
  DEBOUNCE_MS <= uint32 (t1 - g_last_press_time s) ->
  DEBOUNCE_MS <= uint32 (t2 - t1) ->
  G_PAGES_at (g_current_page_index s) = Some page ->
  (1 <= g_current_page_index s ->
   run_edges s [(BUTTON_A, t1); (BUTTON_B, t2)]
   = Done {| g_current_page_index := g_current_page_index s;
             g_target_page := Some page; g_last_press_time := t2 |})
  /\ (g_current_page_index s <= 4 ->
      run_edges s [(BUTTON_B, t1); (BUTTON_A, t2)]
      = Done {| g_current_page_index := g_current_page_index s;
                g_target_page := Some page; g_last_press_time := t2 |}).
Proof.
  intros H1 H2 Hpage.
  assert (Hi : 0 <= g_current_page_index s < 6).
  { unfold G_PAGES_at in Hpage.
    replace (Z.of_nat (List.length G_PAGES)) with 6 in Hpage by reflexivity.
    destruct (Z.leb_spec 0 (g_current_page_index s));
      destruct (Z.ltb_spec (g_current_page_index s) 6); try discriminate. lia. }
  rewrite G_PAGES_at_nth in Hpage by exact Hi.
  split; intros Hend.
  - apply (two_edges_inside_list s BUTTON_A BUTTON_B t1 t2 (g_current_page_index s - 1));
      auto.
  - apply (two_edges_inside_list s BUTTON_B BUTTON_A t1 t2 (g_current_page_index s + 1));
      auto 6.
Qed.

Lemma buttons_undo_each_other_witness :
  run_edges {| g_current_page_index := 2; g_target_page := None;
               g_last_press_time := 4294967000 |}
            [(BUTTON_A, 300); (BUTTON_B, 900)]
  = Done {| g_current_page_index := 2; g_target_page := Some "/temperatura";
            g_last_press_time := 900 |}.
Proof.
  refine (proj1 (buttons_undo_each_other
                   {| g_current_page_index := 2; g_target_page := None;
                      g_last_press_time := 4294967000 |} 300 900 "/temperatura"
                   _ _ eq_refl) _);
    vm_compute; congruence.
Defined.

(** X6.  A press and the next poll: after an accepted edge that returns
    normally, whatever the mailbox held before, the next [/navigate] request
    is answered with the page at the new index, and the mailbox is empty
    afterwards. *)
Theorem accepted_press_is_delivered (g : globals) (gpio now : Z) (s' : nav_state)
        (stale payload : string) :
  DEBOUNCE_MS <= uint32 (now - g_last_press_time (nav g)) ->
  gpio_callback (nav g) gpio now = Done s' ->
  found (strstr (request_buffer stale payload) "GET /navigate ") = true ->
  exists page,
    G_PAGES_at (g_current_page_index s') = Some page
    /\ tcp_server_recv (with_nav s' g) stale (Some payload)
       = (with_nav {| g_current_page_index := g_current_page_index s';
                      g_target_page := None;
                      g_last_press_time := now |} g,
          [ json_http_header (Z.of_nat (String.length (Spec.goto_reply (Some page))));
            Spec.goto_reply (Some page) ]).
Proof.
  intros Hacc Hdone Hnav.
  destruct (gpio_callback_overwrites_slot _ _ _ _ Hacc Hdone) as (Hslot & Hsome & Hlast).
  destruct (g_target_page s') as [page|] eqn:Et; [|congruence].
  exists page. split; [symmetry; exact Hslot|].
  assert (Hvalid : Spec.valid_slot (Some page))
    by (simpl; eapply G_PAGES_at_In; symmetry; exact Hslot).
  destruct (goto_payload_fits _ Hvalid) as [E1 E2].
  unfold tcp_server_recv. rewrite Hnav.
  cbn [with_nav nav cfg rd]. rewrite Et, E1, E2, Hlast. reflexivity.
Qed.

Lemma accepted_press_is_delivered_witness :
  let payload := "GET /navigate HTTP/1.1" ++ CRLF ++ CRLF in
  exists s',
    gpio_callback nav_init BUTTON_B 500 = Done s'
    /\ wire (snd (tcp_server_recv (with_nav s' globals_init) "" (Some payload)))
       = "HTTP/1.1 200 OK" ++ CRLF ++ "Content-Type: application/json" ++ CRLF ++
         "Content-Length: 18" ++ CRLF ++ "Connection: close" ++ CRLF ++ CRLF ++
         "{" ++ q "goto" ++ ":" ++ q "/config" ++ "}".
Proof.
  intros payload.
  exists {| g_current_page_index := 1; g_target_page := Some "/config";
            g_last_press_time := 500 |}.
  split; [reflexivity|].
  destruct (accepted_press_is_delivered globals_init BUTTON_B 500
              {| g_current_page_index := 1; g_target_page := Some "/config";
                 g_last_press_time := 500 |} "" payload)
    as (page & Hpage & E);
    [vm_compute; congruence | reflexivity | reflexivity |].
  rewrite E. injection Hpage as <-. reflexivity.
Defined.

(** * Further properties of the configuration form *)

Lemma config_ext (c1 c2 : config) :
  (forall k, Spec.get k c1 = Spec.get k c2) -> c1 = c2.
Proof.
  intros H. destruct c1, c2.
  pose proof (H Spec.temp_offset). pose proof (H Spec.temp_min).
  pose proof (H Spec.temp_max). pose proof (H Spec.umid_offset).
  pose proof (H Spec.umid_min). pose proof (H Spec.umid_max).
  pose proof (H Spec.press_offset). pose proof (H Spec.press_min).
  pose proof (H Spec.press_max). pose proof (H Spec.alt_offset).
  pose proof (H Spec.alt_min). pose proof (H Spec.alt_max).
  cbn [Spec.get g_temp_offset g_temp_min g_temp_max g_umid_offset g_umid_min g_umid_max
       g_press_offset g_press_min g_press_max g_alt_offset g_alt_min g_alt_max] in *.
  congruence.
Qed.

Lemma parse_post_data_get (k : Spec.config_key) (data : string) (c : config) :
  Spec.get k (parse_post_data data c) = Spec.updated k (strncpy 511 data) c.
Proof.
  unfold parse_post_data, Spec.updated.
  rewrite fold_parse_field, fields_of_tokens. reflexivity.
Qed.

Lemma pieces_not_nil (d : ascii) (s : string) : pieces d s <> [].
Proof.
  destruct s as [|c s]; cbn [pieces]; [discriminate|].
  destruct (Ascii.eqb c d); [discriminate|].
  destruct (pieces d s); discriminate.
Qed.

Lemma pieces_app (d : ascii) (a b : string) :
  pieces d (a ++ String d b) = (pieces d a ++ pieces d b)%list.
Proof.
  induction a as [|c a IH]; cbn [append pieces].
  - rewrite Ascii.eqb_refl. reflexivity.
  - destruct (Ascii.eqb c d); [rewrite IH; reflexivity|].
    rewrite IH. pose proof (pieces_not_nil d a) as Hne.
    destruct (pieces d a); [congruence | reflexivity].
Qed.

(** X7.  Applying the same form data twice is the same as applying it
    once. *)
Theorem parse_post_data_idempotent (data : string) (c : config) :
  parse_post_data data (parse_post_data data c) = parse_post_data data c.
Proof.
  apply config_ext. intros k.
  rewrite !parse_post_data_get. unfold Spec.updated.
  destruct (Spec.value_of (Spec.key_name k) (Spec.fields (strncpy 511 data)))
    as [text|] eqn:E; [reflexivity|].
  rewrite parse_post_data_get. unfold Spec.updated. rewrite E. reflexivity.
Qed.

(** X8.  One form body made of two bodies joined by [&] does what the two
    bodies do one after the other, provided the whole fits the 511 bytes of
    the buffer. *)
Theorem parse_post_data_joined (body1 body2 : string) (c : config) :
  cstr body1 = body1 -> cstr body2 = body2 ->
  (String.length body1 + 1 + String.length body2 <= 511)%nat ->
  parse_post_data (body1 ++ "&" ++ body2) c
  = parse_post_data body2 (parse_post_data body1 c).
Proof.
  intros H1 H2 Hlen.
  assert (E12 : strncpy 511 (body1 ++ "&" ++ body2) = body1 ++ "&" ++ body2).
  { unfold strncpy. rewrite cstr_app; [|exact H1|apply (cstr_app "&"); [reflexivity|exact H2]].
    apply take_all. rewrite !length_append. simpl. lia. }
  assert (E1 : strncpy 511 body1 = body1)
    by (unfold strncpy; rewrite H1; apply take_all; lia).
  assert (E2 : strncpy 511 body2 = body2)
    by (unfold strncpy; rewrite H2; apply take_all; lia).
  unfold parse_post_data. rewrite E12, E1, E2.
  unfold strtok. change (body1 ++ "&" ++ body2) with (body1 ++ String "&" body2).
  rewrite pieces_app, filter_app, fold_left_app. reflexivity.
Qed.

Lemma parse_post_data_joined_witness :
  parse_post_data "temp_min=5&alt_max=1000&temp_min=7" cfg_init
  = parse_post_data "temp_min=7" (parse_post_data "temp_min=5&alt_max=1000" cfg_init).
Proof.
  apply (parse_post_data_joined "temp_min=5&alt_max=1000" "temp_min=7" cfg_init);
    [reflexivity | reflexivity | apply Nat.leb_le; reflexivity].
Defined.

Lemma same_float_eq (x y : spec_float) : same_float x y = true -> x = y.
Proof.
  destruct x as [s|s| |s m e], y as [s'|s'| |s' m' e']; cbn [same_float];
    try discriminate; intros H.
  - apply Bool.eqb_prop in H. congruence.
  - apply Bool.eqb_prop in H. congruence.
  - reflexivity.
  - apply andb_prop in H as [H He]. apply andb_prop in H as [Hs Hm].
    apply Bool.eqb_prop in Hs. apply Pos.eqb_eq in Hm. apply Z.eqb_eq in He.
    congruence.
Qed.

Lemma centi_round_trip_checked :
  holds_from (fun k => let x := centi k in same_float (to_float (atof (f2 x))) x)
             (Z.to_nat 10001) (-5000) = true.
Proof. vm_compute. reflexivity. Qed.

Lemma whole_round_trip_checked :
  holds_from (fun k => let x := centi (100 * k) in same_float (to_float (atof (f2 x))) x)
             (Z.to_nat 2001) (-1000) = true.
Proof. vm_compute. reflexivity. Qed.

(** X9.  A setting survives being printed by [/getconfig] and parsed again
    by the form handler: for every value with two decimals from -50.00 to
    50.00, and for every whole number from -1000 to 1000, the [%.2f] text of
    its [float] converts back to that same [float]. *)
Theorem settings_survive_print_and_parse (k : Z) (x : float) :
  (-5000 <= k <= 5000 /\ x = centi k)
  \/ (-1000 <= k <= 1000 /\ x = centi (100 * k)) ->
  to_float (atof (f2 x)) = x.
Proof.
  intros [[Hk ->] | [Hk ->]]; apply same_float_eq.
  - apply (holds_from_spec _ _ _ k centi_round_trip_checked). lia.
  - apply (holds_from_spec _ _ _ k whole_round_trip_checked). lia.
Qed.

Lemma settings_survive_print_and_parse_witness :
  f2 (f32_lit 900) = "900.00"
  /\ to_float (atof "900.00") = f32_lit 900
  /\ f2 (centi (-1234)) = "-12.34"
  /\ to_float (atof "-12.34") = centi (-1234).
Proof.
  split; [reflexivity|]. split.
  - apply (settings_survive_print_and_parse 900 (f32_lit 900)).
    right. split; [lia | vm_compute; reflexivity].
  - split; [reflexivity|].
    apply (settings_survive_print_and_parse (-1234) (centi (-1234))).
    left. split; [lia | reflexivity].
Defined.

(** * Further properties of the sample cycle *)

Lemma f32_add_nan (x : float) : f32_add x S754_nan = S754_nan.
Proof. destruct x; reflexivity. Qed.

Lemma nan_compares_false (x : float) :
  f32_gt S754_nan x = false /\ f32_lt S754_nan x = false.
Proof. destruct x; split; reflexivity. Qed.

(** X10.  Offsets that are not numbers switch the alert off: after a POST
    whose form data is [temp_offset=nan&umid_offset=nan], every sample
    cycle, whatever the sensors deliver and whatever the limits are, ends
    with the flag false and the empty pattern on the matrix. *)
Theorem nan_offsets_silence_alert
        (pow : double -> double -> double) (g : globals) (stale payload body : string)
        (smp : sample) :
  found (strstr (request_buffer stale payload) "GET /navigate ") = false ->
  found (strstr (request_buffer stale payload) "POST /config ") = true ->
  strstr (request_buffer stale payload) (CRLF ++ CRLF) = Some (CRLF ++ CRLF ++ body) ->
  take 511 body = "temp_offset=nan&umid_offset=nan" ->
  let g1 := fst (tcp_server_recv g stale (Some payload)) in
  sample_cycle pow smp g1
  = (fst (fst (sample_cycle pow smp g1)), false, [matrizVazia]).
Proof.
  intros Hnav Hpost Hbody Htext g1.
  assert (E1 : cfg g1 = parse_post_data body (cfg g)).
  { subst g1. unfold tcp_server_recv. rewrite Hnav, Hpost, Hbody. reflexivity. }
  pose proof (request_body_is_cstr _ _ _ Hbody) as Hc.
  assert (ET : g_temp_offset (cfg g1) = S754_nan).
  { rewrite E1. pose proof (parse_post_data_updates Spec.temp_offset body (cfg g) Hc) as H.
    rewrite Htext in H. exact H. }
  assert (EU : g_umid_offset (cfg g1) = S754_nan).
  { rewrite E1. pose proof (parse_post_data_updates Spec.umid_offset body (cfg g) Hc) as H.
    rewrite Htext in H. exact H. }
  unfold sample_cycle. rewrite run_offset_stores.
  cbn [with_rd rd cfg fst]. unfold em_alerta.
  cbn [g_temperatura g_umidade]. rewrite ET, EU, !f32_add_nan.
  destruct (nan_compares_false (g_temp_max (cfg g1))) as [-> _].
  destruct (nan_compares_false (g_temp_min (cfg g1))) as [_ ->].
  destruct (nan_compares_false (g_umid_max (cfg g1))) as [-> _].
  destruct (nan_compares_false (g_umid_min (cfg g1))) as [_ ->].
  reflexivity.
Qed.

Lemma nan_offsets_silence_alert_witness :
  let pow := fun (x _ : double) => x in
  let payload := "POST /config HTTP/1.1" ++ CRLF ++ CRLF ++
                 "temp_offset=nan&umid_offset=nan" in
  let hot := {| data_aht := {| temperature := f32_lit 80; humidity := f32_lit 0 |};
                pressure_pa := f32_lit 101325 |} in
  snd (fst (sample_cycle pow hot globals_init)) = true
  /\ snd (fst (sample_cycle pow hot
                   (fst (tcp_server_recv globals_init "" (Some payload))))) = false.
Proof.
  intros pow payload hot. split; [reflexivity|].
  rewrite (nan_offsets_silence_alert pow globals_init "" payload
             "temp_offset=nan&umid_offset=nan" hot eq_refl eq_refl eq_refl eq_refl).
  reflexivity.
Defined.

(** X11.  The sampling cadence survives the wrap of the millisecond
    counter: with [d] the milliseconds since the last cycle, counted modulo
    2^32, an iteration runs the sample cycle and records the time when
    [d >= 2000], and changes nothing when [d < 2000]. *)
Theorem sampling_every_2000_ms
        (pow : double -> double -> double) (last d : Z) (smp : sample) (g : globals) :
  0 <= d < 2 ^ 32 ->
  loop_iteration pow (uint32 (last + d)) smp last g
  = if 2000 <=? d
    then (uint32 (last + d), fst (fst (sample_cycle pow smp g)), snd (sample_cycle pow smp g))
    else (last, g, []).
Proof.
  intros Hd. unfold loop_iteration. rewrite uint32_elapsed by exact Hd.
  destruct (2000 <=? d); [|reflexivity].
  destruct (sample_cycle pow smp g) as [[g' alerta] drawn]. reflexivity.
Qed.

Lemma sampling_every_2000_ms_witness :
  let pow := fun (x _ : double) => x in
  let smp := {| data_aht := {| temperature := f32_lit 25; humidity := f32_lit 70 |};
                pressure_pa := f32_lit 101325 |} in
  fst (fst (loop_iteration pow 1704 smp 4294967000 globals_init)) = 1704
  /\ loop_iteration pow 1703 smp 4294967000 globals_init
     = (4294967000, globals_init, []).
Proof.
  intros pow smp. split.
  - change 1704 with (uint32 (4294967000 + 2000)) at 1.
    rewrite (sampling_every_2000_ms pow 4294967000 2000 smp globals_init) by lia.
    reflexivity.
  - change 1703 with (uint32 (4294967000 + 1999)).
    rewrite (sampling_every_2000_ms pow 4294967000 1999 smp globals_init) by lia.
    reflexivity.
Defined.

(** * The buzzer *)

Lemma buzzer_cycles (periodo : Z) (n : nat) :
  let trace := concat (repeat [ gpio_put BUZZER_PIN true; sleep_us periodo;
                                gpio_put BUZZER_PIN false; sleep_us periodo ] n) in
  slept trace = Z.of_nat n * (2 * periodo)
  /\ rises BUZZER_PIN trace = Z.of_nat n
  /\ level_after BUZZER_PIN false trace = false.
Proof.
  induction n as [|n (IH1 & IH2 & IH3)]; [repeat split|].
  cbn [repeat concat app slept rises level_after] in *.
  change (BUZZER_PIN =? BUZZER_PIN) with true. cbv iota.
  rewrite IH1, IH2, IH3. repeat split; lia.
Qed.

(** X12.  For a frequency from 1 Hz to 500 kHz and a duration of up to
    4294967 ms the buzzer loop runs [1000 * duracao / periodo] cycles of two
    half periods each, with [periodo = 1000000 / (2 * freq)] microseconds:
    the tone lasts twice the duration asked for, less at most two half
    periods, and the pin is low at the end. *)
Theorem buzzer_sounds_twice_as_long (freq duracao : Z) :
  1 <= freq <= 500000 ->
  0 <= duracao <= 4294967 ->
  let periodo := 1000000 / (2 * freq) in
  exists trace,
    tocar_buzzer freq duracao = Some trace
    /\ 1 <= periodo
    /\ rises BUZZER_PIN trace = 1000 * duracao / periodo
    /\ 2 * (1000 * duracao) - 2 * periodo < slept trace <= 2 * (1000 * duracao)
    /\ level_after BUZZER_PIN false trace = false.
Proof.
  intros Hf Hd periodo.
  assert (Hp : 1 <= periodo).
  { subst periodo. apply Z.div_le_lower_bound; lia. }
  assert (Hc : 0 <= 1000 * duracao / periodo) by (apply Z.div_pos; lia).
  unfold tocar_buzzer.
  destruct (Z.eqb_spec freq 0); [lia|].
  unfold uint32. rewrite (Z.mod_small (freq * 2)) by lia.
  destruct (Z.eqb_spec (freq * 2) 0); [lia|].
  replace (freq * 2) with (2 * freq) by ring. fold periodo.
  destruct (Z.eqb_spec periodo 0); [lia|].
  rewrite (Z.mod_small (duracao * 1000)) by lia.
  replace (duracao * 1000) with (1000 * duracao) by ring.
  eexists. split; [reflexivity|].
  destruct (buzzer_cycles periodo (Z.to_nat (1000 * duracao / periodo))) as (S1 & S2 & S3).
  cbv zeta in S1, S2, S3. rewrite S1, S2, S3, Z2Nat.id by exact Hc.
  split; [exact Hp|]. split; [reflexivity|]. split; [|reflexivity].
  pose proof (Z.div_mod (1000 * duracao) periodo ltac:(lia)) as Hdm.
  pose proof (Z.mod_pos_bound (1000 * duracao) periodo ltac:(lia)) as Hm.
  nia.
Qed.

Lemma buzzer_sounds_twice_as_long_witness :
  exists trace,
    tocar_buzzer 1200 100 = Some trace
    /\ rises BUZZER_PIN trace = 240
    /\ slept trace = 199680.
Proof.
  destruct (buzzer_sounds_twice_as_long 1200 100) as (trace & E & _ & R & _);
    [lia | lia |].
  exists trace. split; [exact E|]. split; [exact R|].
  vm_compute in E. injection E as <-. reflexivity.
Defined.

(** X13.  For a frequency above 500 kHz and up to 2^31 Hz the function
    divides by zero: the half period is 0, or, at 2^31, the doubled
    frequency wraps to 0. *)
Theorem buzzer_divides_by_zero (freq duracao : Z) :
  500000 < freq <= 2 ^ 31 ->
  tocar_buzzer freq duracao = None.
Proof.
  intros Hf. unfold tocar_buzzer. cbv zeta.
  destruct (Z.eqb_spec freq 0); [lia|].
  destruct (Z.eq_dec freq (2 ^ 31)) as [->|Hne]; [reflexivity|].
  assert (E : uint32 (freq * 2) = freq * 2) by (apply Z.mod_small; lia).
  rewrite E.
  destruct (Z.eqb_spec (freq * 2) 0); [reflexivity|].
  rewrite (Z.div_small 1000000 (freq * 2)) by lia. reflexivity.
Qed.

Lemma buzzer_divides_by_zero_witness :
  tocar_buzzer 500001 100 = None /\ tocar_buzzer 2147483648 100 = None.
Proof.
  split; apply buzzer_divides_by_zero; lia.
Defined.

(** * The LED matrix *)

Lemma to_uchar_range (x : double) (v : Z) : to_uchar x = Some v -> 0 <= v < 256.
Proof.
  unfold to_uchar. destruct (trunc x) as [t|]; [|discriminate].
  destruct (Z.leb_spec 0 t); destruct (Z.leb_spec t 255); cbn [andb];
    try discriminate.
  intros [= <-]. lia.
Qed.

(** The bytes of a shifted byte, checked for each of the 256 values. *)
Lemma shifted_bytes_checked :
  holds_from
    (fun v => (Z.land (Z.shiftl v 24) 255 =? 0) && (Z.land (Z.shiftl v 16) 255 =? 0)
              && (Z.land (Z.shiftl v 8) 255 =? 0)
              && (Z.land (Z.shiftr (Z.shiftl v 24) 8) 255 =? 0)
              && (Z.land (Z.shiftr (Z.shiftl v 16) 8) 255 =? 0)
              && (Z.land (Z.shiftr (Z.shiftl v 8) 8) 255 =? v)
              && (Z.land (Z.shiftr (Z.shiftl v 24) 16) 255 =? 0)
              && (Z.land (Z.shiftr (Z.shiftl v 16) 16) 255 =? v)
              && (Z.land (Z.shiftr (Z.shiftl v 8) 16) 255 =? 0)
              && (Z.shiftr (Z.shiftl v 24) 24 =? v)
              && (Z.shiftr (Z.shiftl v 16) 24 =? 0)
              && (Z.shiftr (Z.shiftl v 8) 24 =? 0)
              && (Z.shiftl v 24 <? 2 ^ 32))
    256 0 = true.
Proof. vm_compute. reflexivity. Qed.

(** X14.  The word for one LED carries the green byte in bits 31..24, the
    red byte in bits 23..16 and the blue byte in bits 15..8; its low byte is
    0 and it fits 32 bits, so the three bytes can be read back from it. *)
Theorem matrix_rgb_packs_three_bytes (r g b : double) (w : Z) :
  matrix_rgb r g b = Some w ->
  to_uchar (f64_mul g (f64_lit 255)) = Some (Z.shiftr w 24)
  /\ to_uchar (f64_mul r (f64_lit 255)) = Some (Z.land (Z.shiftr w 16) 255)
  /\ to_uchar (f64_mul b (f64_lit 255)) = Some (Z.land (Z.shiftr w 8) 255)
  /\ Z.land w 255 = 0
  /\ 0 <= w < 2 ^ 32.
Proof.
  unfold matrix_rgb.
  destruct (to_uchar (f64_mul r (f64_lit 255))) as [R|] eqn:ER; [|discriminate].
  destruct (to_uchar (f64_mul g (f64_lit 255))) as [G|] eqn:EG; [|discriminate].
  destruct (to_uchar (f64_mul b (f64_lit 255))) as [B|] eqn:EB; [|discriminate].
  intros Hw0.
  assert (Ew : w = Z.lor (Z.lor (Z.shiftl G 24) (Z.shiftl R 16)) (Z.shiftl B 8))
    by congruence.
  clear Hw0.
  apply to_uchar_range in ER, EG, EB.
  pose proof (holds_from_spec _ _ _ R shifted_bytes_checked ltac:(lia)) as HR.
  pose proof (holds_from_spec _ _ _ G shifted_bytes_checked ltac:(lia)) as HG.
  pose proof (holds_from_spec _ _ _ B shifted_bytes_checked ltac:(lia)) as HB.
  cbv beta in HR, HG, HB.
  repeat (match goal with
          | H : _ && _ = true |- _ => apply andb_prop in H as [? ?]
          | H : (_ =? _) = true |- _ => apply Z.eqb_eq in H
          | H : (_ <? _) = true |- _ => apply Z.ltb_lt in H
          end).
  assert (E24 : Z.shiftr w 24 = G).
  { subst w. rewrite !Z.shiftr_lor.
    repeat match goal with H : ?l = _ |- context [?l] => rewrite H end.
    rewrite ?Z.lor_0_r, ?Z.lor_0_l. reflexivity. }
  assert (E16 : Z.land (Z.shiftr w 16) 255 = R).
  { subst w. rewrite !Z.shiftr_lor, !Z.land_lor_distr_l.
    repeat match goal with H : ?l = _ |- context [?l] => rewrite H end.
    rewrite ?Z.lor_0_r, ?Z.lor_0_l. reflexivity. }
  assert (E8 : Z.land (Z.shiftr w 8) 255 = B).
  { subst w. rewrite !Z.shiftr_lor, !Z.land_lor_distr_l.
    repeat match goal with H : ?l = _ |- context [?l] => rewrite H end.
    rewrite ?Z.lor_0_r, ?Z.lor_0_l. reflexivity. }
  assert (E0 : Z.land w 255 = 0).
  { subst w. rewrite !Z.land_lor_distr_l.
    repeat match goal with H : ?l = _ |- context [?l] => rewrite H end.
    reflexivity. }
  assert (Hw : 0 <= w).
  { subst w. apply Z.lor_nonneg. split; [apply Z.lor_nonneg; split|];
      apply Z.shiftl_nonneg; lia. }
  rewrite E24, E16, E8.
  split; [reflexivity|]. split; [reflexivity|]. split; [reflexivity|].
  split; [exact E0|]. split; [exact Hw|].
  rewrite Z.shiftr_div_pow2 in E24 by lia.
  pose proof (Z.div_mod w (2 ^ 24) ltac:(lia)) as Hdm.
  pose proof (Z.mod_pos_bound w (2 ^ 24) ltac:(lia)) as Hm.
  lia.
Qed.

Lemma matrix_rgb_packs_three_bytes_witness :
  matrix_rgb (f64_lit 1) (dec_to_double false 5 (-1)) (f64_lit 0) = Some 2147418112
  /\ Z.shiftr 2147418112 24 = 127
  /\ Z.land (Z.shiftr 2147418112 16) 255 = 255
  /\ Z.land (Z.shiftr 2147418112 8) 255 = 0.
Proof.
  assert (E : matrix_rgb (f64_lit 1) (dec_to_double false 5 (-1)) (f64_lit 0)
              = Some 2147418112) by reflexivity.
  destruct (matrix_rgb_packs_three_bytes _ _ _ _ E) as (_ & _ & _ & _ & _).
  repeat split.
Defined.

Lemma reversed_reads (A : Type) (l : list A) :
  map (fun i => nth_error l (List.length l - 1 - i)) (seq 0 (List.length l))
  = map Some (rev l).
Proof.
  induction l as [|x l IH] using rev_ind; [reflexivity|].
  rewrite length_app, rev_app_distr. cbn [List.length rev app].
  rewrite Nat.add_1_r. cbn [seq map].
  f_equal.
  - replace (S (List.length l) - 1 - 0)%nat with (List.length l) by lia.
    rewrite nth_error_app2 by lia. rewrite Nat.sub_diag. reflexivity.
  - rewrite <- seq_shift, map_map, <- IH.
    apply map_ext_in. intros i Hi. apply in_seq in Hi.
    replace (S (List.length l) - 1 - S i)%nat with (List.length l - 1 - i)%nat by lia.
    apply nth_error_app1. lia.
Qed.

Lemma sequence_length (A : Type) (l : list (option A)) (vs : list A) :
  sequence l = Some vs -> List.length vs = List.length l.
Proof.
  revert vs. induction l as [|[a|] l IH]; cbn [sequence]; intros vs.
  - intros [= <-]. reflexivity.
  - destruct (sequence l) as [r|]; [|discriminate].
    intros [= <-]. cbn [List.length]. rewrite (IH r eq_refl). reflexivity.
  - discriminate.
Qed.

(** X15.  [desenho_pio] sends one word per LED and walks the pattern
    backwards: for a pattern of [NUM_PIXELS] elements the words are those of
    its elements from the last to the first, and there are [NUM_PIXELS] of
    them; for a shorter pattern the first element read lies past its end. *)
Theorem desenho_pio_sends_pattern_reversed
        (NUM_PIXELS : nat) (desenho : list double) (r g b : float) :
  (List.length desenho = NUM_PIXELS ->
   desenho_pio NUM_PIXELS desenho r g b = sequence (map (pixel r g b) (rev desenho))
   /\ forall ws, desenho_pio NUM_PIXELS desenho r g b = Some ws ->
                 List.length ws = NUM_PIXELS)
  /\ ((List.length desenho < NUM_PIXELS)%nat ->
      desenho_pio NUM_PIXELS desenho r g b = None).
Proof.
  split.
  - intros <-.
    assert (E : desenho_pio (List.length desenho) desenho r g b
                = sequence (map (pixel r g b) (rev desenho))).
    { unfold desenho_pio.
      rewrite <- (map_map (fun i => nth_error desenho (List.length desenho - 1 - i))
                          (fun o => match o with
                                    | Some d => pixel r g b d
                                    | None => None
                                    end)).
      rewrite reversed_reads, map_map. reflexivity. }
    split; [exact E|].
    intros ws H. rewrite E in H. apply sequence_length in H.
    rewrite H, length_map, length_rev. reflexivity.
  - intros Hshort. unfold desenho_pio.
    destruct NUM_PIXELS as [|n]; [lia|].
    cbn [seq map].
    replace (S n - 1 - 0)%nat with n by lia.
    assert (E : nth_error desenho n = None) by (apply nth_error_None; lia).
    rewrite E. reflexivity.
Qed.

Lemma desenho_pio_sends_pattern_reversed_witness :
  desenho_pio 3 [f64_lit 1; f64_lit 0; f64_lit 0] (f32_lit 1) (f32_lit 1) (f32_lit 0)
  = Some [0; 0; 4294901760]
  /\ desenho_pio 4 [f64_lit 1; f64_lit 0; f64_lit 0] (f32_lit 1) (f32_lit 1) (f32_lit 0)
     = None.
Proof.
  split.
  - destruct (desenho_pio_sends_pattern_reversed
                3 [f64_lit 1; f64_lit 0; f64_lit 0] (f32_lit 1) (f32_lit 1) (f32_lit 0))
      as [H _].
    destruct (H eq_refl) as [E _]. rewrite E. reflexivity.
  - destruct (desenho_pio_sends_pattern_reversed
                4 [f64_lit 1; f64_lit 0; f64_lit 0] (f32_lit 1) (f32_lit 1) (f32_lit 0))
      as [_ H].
    apply H. cbn. lia.
Defined.

Lemma yellow_words (l : list double) :
  Forall (fun d => d = f64_lit 0 \/ d = f64_lit 1) l ->
  sequence (map (pixel (f32_lit 1) (f32_lit 1) (f32_lit 0)) l)
  = Some (map (fun d => if same_float d (f64_lit 1) then 4294901760 else 0) l).
Proof.
  induction 1 as [|d l Hd _ IH]; [reflexivity|].
  cbn [map sequence]. rewrite IH.
  destruct Hd as [-> | ->]; reflexivity.
Qed.

(** X16.  With the colour scales that [main] passes, red 1.0, green 1.0 and
    blue 0.0, a pattern of zeros and ones is sent as yellow and dark LEDs: a
    one gives the word [0xFFFF0000] (green and red at 255, blue at 0), a zero
    gives 0. *)
Theorem pattern_is_sent_in_yellow (desenho : list double) :
  Forall (fun d => d = f64_lit 0 \/ d = f64_lit 1) desenho ->
  desenho_pio (List.length desenho) desenho (f32_lit 1) (f32_lit 1) (f32_lit 0)
  = Some (map (fun d => if same_float d (f64_lit 1) then 4294901760 else 0)
              (rev desenho)).
Proof.
  intros Hall.
  destruct (desenho_pio_sends_pattern_reversed
              (List.length desenho) desenho (f32_lit 1) (f32_lit 1) (f32_lit 0))
    as [H _].
  destruct (H eq_refl) as [E _]. rewrite E.
  apply yellow_words. apply Forall_rev. exact Hall.
Qed.

Lemma pattern_is_sent_in_yellow_witness :
  desenho_pio 4 [f64_lit 0; f64_lit 1; f64_lit 1; f64_lit 0]
              (f32_lit 1) (f32_lit 1) (f32_lit 0)
  = Some [0; 4294901760; 4294901760; 0].
Proof.
  apply (pattern_is_sent_in_yellow [f64_lit 0; f64_lit 1; f64_lit 1; f64_lit 0]).
  repeat (apply Forall_cons; [first [left; reflexivity | right; reflexivity]|]).
  apply Forall_nil.
Defined.

(** * The readings on [/estado] *)








(** * The HTML pages *)

(** What [send_full_response] writes for each of the three templates: none
    is cut by the 4096 bytes of [final_content]. *)
Lemma config_page_checked :
  send_full_response HTML_CONTENT_CONFIG
  = [ html_http_header
        (Z.of_nat (String.length
                     (HTML_HEADER ++ HTML_NAV ++ HTML_CONTENT_CONFIG ++ HTML_FOOTER)));
      HTML_HEADER; HTML_NAV; HTML_CONTENT_CONFIG; HTML_FOOTER ].
Proof. vm_compute. reflexivity. Qed.

Lemma chart_page_checked :
  send_full_response HTML_CONTENT_CHART_PAGE
  = [ html_http_header
        (Z.of_nat (String.length
                     (HTML_HEADER ++ HTML_NAV
                      ++ format_d HTML_CONTENT_CHART_PAGE MAX_CHART_POINTS
                      ++ HTML_FOOTER)));
      HTML_HEADER; HTML_NAV; format_d HTML_CONTENT_CHART_PAGE MAX_CHART_POINTS;
      HTML_FOOTER ].
Proof. vm_compute. reflexivity. Qed.

Lemma home_page_checked :
  send_full_response HTML_CONTENT_INICIO
  = [ html_http_header
        (Z.of_nat (String.length
                     (HTML_HEADER ++ HTML_NAV ++ HTML_CONTENT_INICIO ++ HTML_FOOTER)));
      HTML_HEADER; HTML_NAV; HTML_CONTENT_INICIO; HTML_FOOTER ].
Proof. vm_compute. reflexivity. Qed.

(** X18.  A request that names none of the four API routes changes nothing
    and is answered with a whole HTML page: the header with the page's
    length, then [HTML_HEADER], [HTML_NAV], the content and [HTML_FOOTER],
    none of them cut.  The content is the configuration page when
    [GET /config ] occurs in the request, otherwise the chart page with
    [MAX_CHART_POINTS] filled in when one of the four chart routes occurs,
    and the home page for anything else, whatever its method or path. *)
Theorem html_pages_are_sent_whole (g : globals) (stale payload : string) :
  let request := request_buffer stale payload in
  found (strstr request "GET /navigate ") = false ->
  found (strstr request "POST /config ") = false ->
  found (strstr request "GET /getconfig ") = false ->
  found (strstr request "GET /estado ") = false ->
  let content :=
    if found (strstr request "GET /config ") then HTML_CONTENT_CONFIG
    else if found (strstr request "GET /temperatura ")
            || found (strstr request "GET /umidade ")
            || found (strstr request "GET /pressao ")
            || found (strstr request "GET /altitude ")
    then format_d HTML_CONTENT_CHART_PAGE MAX_CHART_POINTS
    else HTML_CONTENT_INICIO in
  tcp_server_recv g stale (Some payload)
  = (g, [ html_http_header
            (Z.of_nat (String.length (HTML_HEADER ++ HTML_NAV ++ content ++ HTML_FOOTER)));
          HTML_HEADER; HTML_NAV; content; HTML_FOOTER ]).
Proof.
  intros request Hnav Hpost Hget Hest content.
  unfold tcp_server_recv. fold request. rewrite Hnav, Hpost, Hget, Hest.
  subst content.
  destruct (found (strstr request "GET /config ")).
  - rewrite config_page_checked. reflexivity.
  - destruct (found (strstr request "GET /temperatura ")
              || found (strstr request "GET /umidade ")
              || found (strstr request "GET /pressao ")
              || found (strstr request "GET /altitude ")).
    + rewrite chart_page_checked. reflexivity.
    + rewrite home_page_checked. reflexivity.
Qed.

Lemma html_pages_are_sent_whole_witness :
  let payload := "DELETE /nowhere HTTP/1.1" ++ CRLF ++ CRLF in
  wire (snd (tcp_server_recv globals_init "" (Some payload)))
  = "HTTP/1.1 200 OK" ++ CRLF ++ "Content-Type: text/html" ++ CRLF ++
    "Content-Length: 3199" ++ CRLF ++ "Connection: close" ++ CRLF ++ CRLF ++
    HTML_HEADER ++ HTML_NAV ++ HTML_CONTENT_INICIO ++ HTML_FOOTER.
Proof.
  intros payload.
  rewrite (html_pages_are_sent_whole globals_init "" payload
             eq_refl eq_refl eq_refl eq_refl).
  vm_compute. reflexivity.
Defined.
